(** * github_action_utils: workflow-command encoding, emission and read-back

    A shallow embedding of [github_action_utils.py].  Python text ([str]) is a
    list of Unicode code points, file contents are lists of bytes, the process
    environment and the file system are finite maps, and every function that
    prints, touches a file or may raise is a computation over an explicit
    [world]. *)

From Stdlib Require Import NArith ZArith String Ascii DecimalString Lia.
From stdpp Require Import base option list gmap fin_maps.

Set Default Proof Using "Type".
#[local] Set Warnings "-register-all".

(** ** Text *)

(** A Python [str]: a sequence of code points. *)
Definition pystr : Type := list N.

(** The text of a source literal (ASCII only in this module). *)
Definition lit (s : string) : pystr :=
  map N_of_ascii (list_ascii_of_string s).

Module Text.

(** [s.startswith(pat)] *)
Fixpoint starts_with (pat s : pystr) : bool :=
  match pat, s with
  | [], _ => true
  | p :: pat', c :: s' => (p =? c)%N && starts_with pat' s'
  | _ :: _, [] => false
  end.

(** [pat in s] *)
Fixpoint contains (pat s : pystr) : bool :=
  starts_with pat s ||
  match s with
  | [] => false
  | _ :: s' => contains pat s'
  end.

(** [str.replace] scans left to right and replaces non-overlapping
    occurrences.  [skip] counts the characters of a matched occurrence that
    are still to be passed over. *)
Fixpoint replace_from (old new : pystr) (skip : nat) (s : pystr) : pystr :=
  match s with
  | [] => []
  | c :: s' =>
      match skip with
      | S k => replace_from old new k s'
      | O =>
          if starts_with old s
          then new ++ replace_from old new (length old - 1) s'
          else c :: replace_from old new 0 s'
      end
  end.

(** [s.replace(old, new)]; with an empty [old] Python puts [new] before every
    character and at the end. *)
Definition replace (old new s : pystr) : pystr :=
  match old with
  | [] => new ++ flat_map (fun c => c :: new) s
  | _ :: _ => replace_from old new 0 s
  end.

(** [s.split(sep)] for a non-empty [sep]: [cur] is the part being read,
    reversed. *)
Fixpoint split_from (sep : pystr) (skip : nat) (cur s : pystr) : list pystr :=
  match s with
  | [] => [rev cur]
  | c :: s' =>
      match skip with
      | S k => split_from sep k cur s'
      | O =>
          if starts_with sep s
          then rev cur :: split_from sep (length sep - 1) [] s'
          else split_from sep 0 (c :: cur) s'
      end
  end.

Definition split (sep s : pystr) : list pystr := split_from sep 0 [] s.

(** [str.isspace] on one code point (the code points with bidirectional type
    WS, B or S, or category Zs). *)
Definition is_space (c : N) : bool :=
  ((9 <=? c) && (c <=? 13) || (28 <=? c) && (c <=? 32) ||
   (c =? 133) || (c =? 160) || (c =? 5760) ||
   (8192 <=? c) && (c <=? 8202) ||
   (c =? 8232) || (c =? 8233) || (c =? 8239) || (c =? 8287) ||
   (c =? 12288))%N.

Fixpoint lstrip (s : pystr) : pystr :=
  match s with
  | [] => []
  | c :: s' => if is_space c then lstrip s' else s
  end.

Definition rstrip (s : pystr) : pystr := rev (lstrip (rev s)).

(** [s.strip()] *)
Definition strip (s : pystr) : pystr := lstrip (rstrip s).

(** [sep.join(parts)] *)
Fixpoint join (sep : pystr) (parts : list pystr) : pystr :=
  match parts with
  | [] => []
  | [p] => p
  | p :: ps => p ++ sep ++ join sep ps
  end.

(** ASCII case mapping, as [str.lower], [str.upper] and [str.title] do on
    the ASCII letters; other code points are left as they are and count
    as uncased. *)
Definition is_upper (c : N) : bool := ((65 <=? c) && (c <=? 90))%N.
Definition is_lower (c : N) : bool := ((97 <=? c) && (c <=? 122))%N.
Definition to_lower (c : N) : N := if is_upper c then (c + 32)%N else c.
Definition to_upper (c : N) : N := if is_lower c then (c - 32)%N else c.

Definition lower (s : pystr) : pystr := map to_lower s.

Definition upper (s : pystr) : pystr := map to_upper s.

(** [s.title()]: a cased character is upper-cased when the previous one is
    uncased and lower-cased otherwise. *)
Fixpoint title_from (previous_is_cased : bool) (s : pystr) : pystr :=
  match s with
  | [] => []
  | c :: s' =>
      if is_lower c then
        (if previous_is_cased then c else to_upper c) :: title_from true s'
      else if is_upper c then
        (if previous_is_cased then to_lower c else c) :: title_from true s'
      else c :: title_from false s'
  end.

Definition title (s : pystr) : pystr := title_from false s.

End Text.

Import Text.

(** ** Values, exceptions and results *)

(** The exceptions that the functions below can raise; [UserError] is any
    exception raised by code of the caller. *)
Inductive exn : Type :=
  | KeyError (key : pystr)
  | TypeError
  | ValueError
  | UnboundLocalError (variable : pystr)
  | FileNotFoundError (path : pystr)
  | UnicodeEncodeError
  | UnicodeDecodeError
  | UserError (message : pystr).

Inductive result (A : Type) : Type :=
  | Ok (a : A)
  | Raise (e : exn).

Arguments Ok {A} a.
Arguments Raise {A} e.

(** A [float]: not a number, an infinity, or a finite number.  A finite
    number is known by the decimal numeral that [float.__repr__] prints for
    it: the sign, the digits before the point, the digits after the point
    (none when the numeral has no point, as in [1e+16]) and the exponent
    (none when the numeral has no exponent, as in [1.5]).  How the digits
    follow from the binary value is not modelled. *)
Inductive pyfloat : Type :=
  | FNan
  | FInf (negative : bool)
  | FFinite (negative : bool) (integral fraction : Decimal.uint)
      (exponent : option Z).

(** The values a caller can pass where the source says [Any].  A list or a
    dict is a finite tree here, so a container that contains itself is not
    represented.  [VObject str_result] is an object that is none of the
    others (a set, a bytes object, an instance of a user class), known by
    what [str()] does with it: the text it returns, or the exception that
    the [__str__] of the object raises. *)
Inductive pyval : Type :=
  | VNone
  | VBool (b : bool)
  | VInt (z : Z)
  | VFloat (x : pyfloat)
  | VStr (s : pystr)
  | VList (items : list pyval)
  | VTuple (items : list pyval)
  | VDict (entries : list (pyval * pyval))
  | VObject (str_result : result pystr).

Definition result_bind {A B} (r : result A) (k : A -> result B) : result B :=
  match r with
  | Ok a => k a
  | Raise e => Raise e
  end.

Definition result_mapM {A B} (f : A -> result B) : list A -> result (list B) :=
  fix go (l : list A) : result (list B) :=
    match l with
    | [] => Ok []
    | x :: l' =>
        result_bind (f x) (fun y =>
        result_bind (go l') (fun ys => Ok (y :: ys)))
    end.

(** ** Coercion to text: [str()] and [json.dumps] *)

(** [str(z)] for an [int], of any size: the limit that an interpreter can
    put on the number of digits of the conversion is not modelled. *)
Definition str_int (z : Z) : pystr :=
  lit (NilEmpty.string_of_int (Z.to_int z)).

(** The exponent of a numeral, as [%+.02d] prints it: always a sign, and at
    least two digits. *)
Definition exponent_text (e : Z) : pystr :=
  (if (e <? 0)%Z then lit "-" else lit "+") ++
  (if (Z.abs e <? 10)%Z then lit "0" else []) ++
  str_int (Z.abs e).

(** The numeral of a finite [float]. *)
Definition numeral (negative : bool) (integral fraction : Decimal.uint)
    (exponent : option Z) : pystr :=
  (if negative then lit "-" else []) ++
  lit (NilEmpty.string_of_uint integral) ++
  match fraction with
  | Decimal.Nil => []
  | _ => lit "." ++ lit (NilEmpty.string_of_uint fraction)
  end ++
  match exponent with
  | Some e => lit "e" ++ exponent_text e
  | None => []
  end.

(** [float.__repr__(x)], which is also [str(x)]. *)
Definition float_repr (x : pyfloat) : pystr :=
  match x with
  | FNan => lit "nan"
  | FInf false => lit "inf"
  | FInf true => lit "-inf"
  | FFinite negative integral fraction exponent =>
      numeral negative integral fraction exponent
  end.

Definition hex_digit (d : N) : N :=
  if (d <? 10)%N then (48 + d)%N else (87 + d)%N.

(** The [width] low hexadecimal digits of [n], most significant first
    (lower case, as [%0{width}x] prints them when [n] fits). *)
Fixpoint hex_fixed (width : nat) (n : N) : pystr :=
  match width with
  | O => []
  | S w => hex_fixed w (n / 16) ++ [hex_digit (n mod 16)]
  end.

Module Json.

(** [json.dumps] with its default arguments: [ensure_ascii=True], separators
    [", "] and [": "], [skipkeys=False], [allow_nan=True], no [default] hook.
    The values are finite trees, so the check for circular references
    never fires; the recursion limit of the interpreter is not modelled. *)

Definition u_escape (c : N) : pystr := lit "\u" ++ hex_fixed 4 c.

(** One code point inside a JSON string ([encode_basestring_ascii]). *)
Definition escape_char (c : N) : pystr :=
  if (c =? 34)%N then [92; 34]%N
  else if (c =? 92)%N then lit "\\"
  else if (c =? 10)%N then lit "\n"
  else if (c =? 13)%N then lit "\r"
  else if (c =? 9)%N then lit "\t"
  else if (c =? 8)%N then lit "\b"
  else if (c =? 12)%N then lit "\f"
  else if ((32 <=? c) && (c <=? 126))%N then [c]
  else if (c <? 0x10000)%N then u_escape c
  else
    let n := (c - 0x10000)%N in
    u_escape (0xD800 + (n / 1024) mod 1024) ++ u_escape (0xDC00 + n mod 1024).

Definition quote : pystr := [34%N].

Definition encode_string (s : pystr) : pystr :=
  quote ++ flat_map escape_char s ++ quote.

(** A [float] ([floatstr], with [allow_nan=True]). *)
Definition floatstr (x : pyfloat) : pystr :=
  match x with
  | FNan => lit "NaN"
  | FInf false => lit "Infinity"
  | FInf true => lit "-Infinity"
  | FFinite _ _ _ _ => float_repr x
  end.

(** A dict key: text is encoded as a string, [float], [int], [bool] and
    [None] keys are turned into text first, and any other key is a
    [TypeError]. *)
Definition encode_key (k : pyval) : result pystr :=
  match k with
  | VStr s => Ok (encode_string s)
  | VFloat x => Ok (encode_string (floatstr x))
  | VBool true => Ok (encode_string (lit "true"))
  | VBool false => Ok (encode_string (lit "false"))
  | VNone => Ok (encode_string (lit "null"))
  | VInt z => Ok (encode_string (str_int z))
  | VList _ | VTuple _ | VDict _ | VObject _ => Raise TypeError
  end.

Fixpoint dumps (v : pyval) : result pystr :=
  match v with
  | VNone => Ok (lit "null")
  | VBool true => Ok (lit "true")
  | VBool false => Ok (lit "false")
  | VInt z => Ok (str_int z)
  | VFloat x => Ok (floatstr x)
  | VStr s => Ok (encode_string s)
  | VList items | VTuple items =>
      result_bind (result_mapM dumps items) (fun parts =>
      Ok (lit "[" ++ join (lit ", ") parts ++ lit "]"))
  | VDict entries =>
      result_bind
        (result_mapM
           (fun entry : pyval * pyval =>
              result_bind (encode_key (fst entry)) (fun k =>
              result_bind (dumps (snd entry)) (fun x =>
              Ok (k ++ lit ": " ++ x))))
           entries)
        (fun parts => Ok (lit "{" ++ join (lit ", ") parts ++ lit "}"))
  | VObject _ => Raise TypeError
  end.

End Json.

(** ** UTF-8 *)

Module Utf8.

(** [chr(c).encode("utf-8")]; a surrogate cannot be encoded. *)
Definition encode_char (c : N) : option (list N) :=
  if (c <? 0x80)%N then Some [c]
  else if (c <? 0x800)%N then Some [0xC0 + c / 64; 0x80 + c mod 64]%N
  else if (c <? 0x10000)%N then
    if ((0xD800 <=? c) && (c <=? 0xDFFF))%N then None
    else Some [0xE0 + c / 4096; 0x80 + (c / 64) mod 64; 0x80 + c mod 64]%N
  else if (c <? 0x110000)%N then
    Some [0xF0 + c / 262144; 0x80 + (c / 4096) mod 64;
          0x80 + (c / 64) mod 64; 0x80 + c mod 64]%N
  else None.

Fixpoint encode (s : pystr) : option (list N) :=
  match s with
  | [] => Some []
  | c :: s' =>
      match encode_char c, encode s' with
      | Some b, Some bs => Some (b ++ bs)
      | _, _ => None
      end
  end.

Definition continuation (b : N) : bool := ((0x80 <=? b) && (b <? 0xC0))%N.

(** [bs.decode("utf-8")], strict: no overlong form, no surrogate, nothing
    above U+10FFFF, no byte out of place. *)
Fixpoint decode (bs : list N) : option pystr :=
  match bs with
  | [] => Some []
  | b0 :: r0 =>
      if (b0 <? 0x80)%N then option_map (cons b0) (decode r0)
      else if (b0 <? 0xC0)%N then None
      else if (b0 <? 0xE0)%N then
        match r0 with
        | b1 :: r1 =>
            let c := ((b0 - 0xC0) * 64 + (b1 - 0x80))%N in
            if continuation b1 && (0x80 <=? c)%N
            then option_map (cons c) (decode r1) else None
        | _ => None
        end
      else if (b0 <? 0xF0)%N then
        match r0 with
        | b1 :: b2 :: r2 =>
            let c := ((b0 - 0xE0) * 4096 + (b1 - 0x80) * 64 + (b2 - 0x80))%N in
            if continuation b1 && continuation b2 && (0x800 <=? c)%N &&
               negb ((0xD800 <=? c) && (c <=? 0xDFFF))%N
            then option_map (cons c) (decode r2) else None
        | _ => None
        end
      else if (b0 <? 0xF8)%N then
        match r0 with
        | b1 :: b2 :: b3 :: r3 =>
            let c := ((b0 - 0xF0) * 262144 + (b1 - 0x80) * 4096 +
                      (b2 - 0x80) * 64 + (b3 - 0x80))%N in
            if continuation b1 && continuation b2 && continuation b3 &&
               (0x10000 <=? c)%N && (c <? 0x110000)%N
            then option_map (cons c) (decode r3) else None
        | _ => None
        end
      else None
  end.

End Utf8.

Definition str_encode (s : pystr) : result (list N) :=
  match Utf8.encode s with
  | Some bs => Ok bs
  | None => Raise UnicodeEncodeError
  end.

Definition bytes_decode (bs : list N) : result pystr :=
  match Utf8.decode bs with
  | Some s => Ok s
  | None => Raise UnicodeDecodeError
  end.

(** ** Binary files, line by line *)

(** The lines a binary file yields: each ends with its line feed, except
    possibly the last; [cur] is the line being read, reversed. *)
Fixpoint lines_from (cur : list N) (content : list N) : list (list N) :=
  match content with
  | [] => match cur with [] => [] | _ :: _ => [rev cur] end
  | b :: content' =>
      if (b =? 10)%N then rev (b :: cur) :: lines_from [] content'
      else lines_from (b :: cur) content'
  end.

Definition file_lines (content : list N) : list (list N) :=
  lines_from [] content.

(** ** The world: environment, files, standard output *)

(** What reaches standard output: a line written by [print], or one written
    by the [echo] child process of [subprocess.run]. *)
Inductive out_event : Type :=
  | Printed (line : pystr)
  | Echoed (line : pystr).

Record world : Type := mkWorld {
  environ : gmap pystr pystr;
  fs : gmap pystr (list N);
  stdout : list out_event;
  warnings : list pystr;
  (** the values [uuid.uuid1().int] takes, call after call *)
  uuid_source : nat -> N;
  uuid_calls : nat;
  (** the module constant, set from the environment at import *)
  COMMANDS_USE_SUBPROCESS : bool
}.

(** [bool(os.environ.get("COMMANDS_USE_SUBPROCESS", False))] *)
Definition import_COMMANDS_USE_SUBPROCESS (env : gmap pystr pystr) : bool :=
  match env !! lit "COMMANDS_USE_SUBPROCESS" with
  | Some v => match v with [] => false | _ :: _ => true end
  | None => false
  end.

Definition set_fs (f : gmap pystr (list N)) (w : world) : world :=
  mkWorld (environ w) f (stdout w) (warnings w) (uuid_source w) (uuid_calls w)
    (COMMANDS_USE_SUBPROCESS w).

Definition set_stdout (o : list out_event) (w : world) : world :=
  mkWorld (environ w) (fs w) o (warnings w) (uuid_source w) (uuid_calls w)
    (COMMANDS_USE_SUBPROCESS w).

Definition set_warnings (ws : list pystr) (w : world) : world :=
  mkWorld (environ w) (fs w) (stdout w) ws (uuid_source w) (uuid_calls w)
    (COMMANDS_USE_SUBPROCESS w).

Definition set_uuid_calls (n : nat) (w : world) : world :=
  mkWorld (environ w) (fs w) (stdout w) (warnings w) (uuid_source w) n
    (COMMANDS_USE_SUBPROCESS w).

(** A computation: it ends with a value or an exception, and what it did to
    the world before an exception stays done. *)
Definition M (A : Type) : Type := world -> result A * world.

Definition ret {A} (a : A) : M A := fun w => (Ok a, w).


Definition bind {A B} (m : M A) (k : A -> M B) : M B :=
  fun w =>
    match m w with
    | (Ok a, w') => k a w'
    | (Raise e, w') => (Raise e, w')
    end.

Definition lift {A} (r : result A) : M A := fun w => (r, w).

Notation "x <- m ;; k" := (bind m (fun x => k))
  (at level 100, m at next level, right associativity).
Notation "m ;;; k" := (bind m (fun _ => k))
  (at level 100, right associativity).

(** How a line goes out: [if use_subprocess or COMMANDS_USE_SUBPROCESS]. *)
Definition written (use_subprocess : bool) (w : world) (line : pystr)
  : out_event :=
  if use_subprocess || COMMANDS_USE_SUBPROCESS w
  then Echoed line else Printed line.

(** [subprocess.run(["echo", line])], or [print(line)]. *)
Definition emit (use_subprocess : bool) (line : pystr) : M unit :=
  fun w => (Ok tt, set_stdout (stdout w ++ [written use_subprocess w line]) w).

(** [os.environ[name]] *)
Definition environ_get (name : pystr) : M pystr :=
  fun w =>
    match environ w !! name with
    | Some v => (Ok v, w)
    | None => (Raise (KeyError name), w)
    end.

(** [warn(message, DeprecationWarning)] *)
Definition warn (message : pystr) : M unit :=
  fun w => (Ok tt, set_warnings (warnings w ++ [message]) w).

(** A world with no variable set, no file and nothing printed. *)
Definition empty_world : world :=
  mkWorld ∅ ∅ [] [] (fun n => N.of_nat n) 0 false.

(** A world where [GITHUB_ENV] names a file with the given content, or a
    file that does not exist yet. *)
Definition env_path : pystr := lit "/tmp/github_env".

Definition env_world (content : option (list N)) : world :=
  mkWorld {[ lit "GITHUB_ENV" := env_path ]}
    (match content with
     | Some c => {[ env_path := c ]}
     | None => ∅
     end)
    [] [] (fun n => N.of_nat n) 0 false.

(** A world where the summary file holds a line and the path file is
    empty. *)
Definition summary_path : pystr := lit "/tmp/summary".
Definition system_path_file : pystr := lit "/tmp/path".

Definition files_world : world :=
  mkWorld
    {[ lit "GITHUB_STEP_SUMMARY" := summary_path;
       lit "GITHUB_PATH" := system_path_file ]}
    {[ summary_path := lit "old summary" ++ [10%N];
       system_path_file := [] ]}
    [] [] (fun n => N.of_nat n) 0 false.

(** What [str()] of a container is does not matter in the examples. *)
Definition any_container_str : pyval -> result pystr :=
  fun _ => Ok (lit "[...]").

(** The list [[1, 1.5, "a:b", {"k": None, 0.5: (nan,)}]]. *)
Definition encodable_list : pyval :=
  VList
    [VInt 1;
     VFloat (FFinite false (Decimal.D1 Decimal.Nil) (Decimal.D5 Decimal.Nil)
               None);
     VStr (lit "a:b");
     VDict
       [(VStr (lit "k"), VNone);
        (VFloat (FFinite false (Decimal.D0 Decimal.Nil)
                   (Decimal.D5 Decimal.Nil) None),
         VTuple [VFloat FNan])]].

(** The list [[1, {2.5}]], which holds a set. *)
Definition list_with_set : pyval :=
  VList [VInt 1; VObject (Ok (lit "{2.5}"))].

(** An object whose [__str__] raises. *)
Definition raising_object : pyval :=
  VObject (Raise (UserError (lit "no text"))).

Section Source.

(** [str()] of a list, a tuple or a dict is Python's [repr] of the container,
    which calls the [__repr__] of what the container holds and raises what
    that raises; it is not defined by this module and is taken as given.  It
    is reached only when a caller passes a container where the signature
    asks for [str], or to [echo]. *)
Variable container_str : pyval -> result pystr.

(** [str(data)]: the text, or the exception that the [__str__] of the object
    raises. *)
Definition py_str (data : pyval) : result pystr :=
  match data with
  | VNone => Ok (lit "None")
  | VBool true => Ok (lit "True")
  | VBool false => Ok (lit "False")
  | VInt z => Ok (str_int z)
  | VFloat x => Ok (float_repr x)
  | VStr s => Ok s
  | VObject str_result => str_result
  | VList _ | VTuple _ | VDict _ => container_str data
  end.

Definition is_container (data : pyval) : bool :=
  match data with
  | VList _ | VTuple _ | VDict _ => true
  | _ => false
  end.

(** ** The escaper *)

Definition _make_string (data : pyval) : result pystr :=
  if is_container data then Json.dumps data else py_str data.

Definition escape_text (s : pystr) : pystr :=
  replace [10%N] (lit "%0A")
    (replace [13%N] (lit "%0D") (replace (lit "%") (lit "%25") s)).

Definition _escape_data (data : pyval) : result pystr :=
  result_bind (_make_string data) (fun s => Ok (escape_text s)).

Definition _escape_property (data : pyval) : result pystr :=
  result_bind (_escape_data data) (fun s =>
  Ok (replace (lit ",") (lit "%2C") (replace (lit ":") (lit "%3A") s))).

Definition _clean_markdown_string (markdown_string : pystr) : pystr :=
  replace (lit "%0A") [10%N]
    (replace (lit "%0D") [13%N] (replace (lit "%25") (lit "%") markdown_string)).

Definition _to_camel_case (text : pystr) : pystr :=
  lower (take 1 text) ++ drop 1 (replace (lit "_") [] (title text)).

(** [value is None] *)
Definition is_None (value : pyval) : bool :=
  match value with
  | VNone => true
  | _ => false
  end.

(** [kwargs]: the keyword arguments in the order of the call. *)
Definition _build_options_string (kwargs : list (pystr * pyval))
  : result pystr :=
  result_bind
    (result_mapM
       (fun kv : pystr * pyval =>
          result_bind (_escape_property (snd kv)) (fun v =>
          Ok (_to_camel_case (fst kv) ++ lit "=" ++ v)))
       (List.filter (fun kv => negb (is_None (snd kv))) kwargs))
    (fun parts => Ok (join (lit ",") parts)).

(** ** The command encoder and emitter *)

Definition COMMAND_MARKER : pystr := lit "::".
Definition ACTION_ENV_DELIMITER : pystr := lit "__ENV_DELIMITER__".

Definition _print_command (command : pystr) (command_message : pyval)
    (options_string : pystr) (use_subprocess escape_message : bool) : M unit :=
  message <- lift (if escape_message then _escape_data command_message
                   else py_str command_message) ;;
  let full_command :=
    COMMAND_MARKER ++ command ++ lit " " ++
    (match options_string with [] => [] | _ :: _ => options_string end) ++
    COMMAND_MARKER ++ message in
  emit use_subprocess full_command.

Definition debug (message : pystr) (use_subprocess : bool) : M unit :=
  _print_command (lit "debug") (VStr message) [] use_subprocess false.

(** [None] for an option that the caller leaves out. *)
Definition opt {A} (inj : A -> pyval) (o : option A) : pyval :=
  match o with
  | Some a => inj a
  | None => VNone
  end.

Definition log_options (title file : option pystr)
    (col end_column line end_line : option Z) : list (pystr * pyval) :=
  [ (lit "title", opt VStr title);
    (lit "file", opt VStr file);
    (lit "col", opt VInt col);
    (lit "end_column", opt VInt end_column);
    (lit "line", opt VInt line);
    (lit "end_line", opt VInt end_line) ].

Definition notice (message : pystr) (title file : option pystr)
    (col end_column line end_line : option Z) (use_subprocess : bool)
  : M unit :=
  options <- lift (_build_options_string
                     (log_options title file col end_column line end_line)) ;;
  _print_command (lit "notice") (VStr message) options use_subprocess false.


(** ** Scoped helpers *)



(** A generator function of the shape [before; yield; after], the [yield]
    outside every [try] statement; [S] is what the local variables hold at
    the [yield]. *)
Record generator (S : Type) : Type := mkGenerator {
  before_yield : M S;
  after_yield : S -> M unit
}.

Arguments mkGenerator {S} _ _.
Arguments before_yield {S} _.
Arguments after_yield {S} _.

(** [with contextmanager(g)(): body].  Entering runs the generator up to its
    [yield].  When the body ends normally the generator is resumed and runs
    to its end; when it raises, the exception is thrown into the generator at
    the [yield], where nothing catches it, so it leaves the generator and
    the [with] statement unchanged. *)
Definition with_contextmanager {S} (g : generator S) (body : M unit)
  : M unit :=
  fun w =>
    match before_yield g w with
    | (Raise e, w1) => (Raise e, w1)
    | (Ok locals, w1) =>
        match body w1 with
        | (Ok _, w2) => after_yield g locals w2
        | (Raise e, w2) => (Raise e, w2)
        end
    end.



(** [str(uuid.UUID(int=n))] *)
Definition str_uuid (n : N) : pystr :=
  let hex := hex_fixed 32 (n mod 2 ^ 128) in
  take 8 hex ++ lit "-" ++ take 4 (drop 8 hex) ++ lit "-" ++
  take 4 (drop 12 hex) ++ lit "-" ++ take 4 (drop 16 hex) ++ lit "-" ++
  drop 20 hex.

(** [str(uuid.uuid1())] *)
Definition uuid1_str : M pystr :=
  fun w =>
    (Ok (str_uuid (uuid_source w (uuid_calls w))),
     set_uuid_calls (S (uuid_calls w)) w).

(** [not token] *)
Definition falsy (token : option pystr) : bool :=
  match token with
  | None => true
  | Some [] => true
  | Some (_ :: _) => false
  end.

Definition begin_stop_commands (token : option pystr) (use_subprocess : bool)
  : M pystr :=
  token <- (if falsy token then uuid1_str else ret (default [] token)) ;;
  _print_command (lit "stop-commands") (VStr token) [] use_subprocess false ;;;
  ret token.

Definition end_stop_commands (token : pystr) (use_subprocess : bool)
  : M unit :=
  emit use_subprocess (COMMAND_MARKER ++ token ++ COMMAND_MARKER).

Definition stop_commands_generator (token : option pystr)
    (use_subprocess : bool) : generator pystr :=
  mkGenerator
    (begin_stop_commands token use_subprocess)
    (fun stop_token => end_stop_commands stop_token use_subprocess).

(** [with stop_commands(token, use_subprocess): body] *)
Definition stop_commands (token : option pystr) (use_subprocess : bool)
    (body : M unit) : M unit :=
  with_contextmanager (stop_commands_generator token use_subprocess) body.

(** ** Files *)

(** The file system is a map from paths to contents; opening a file for
    appending or writing always succeeds, and reading a path that is not in
    the map fails. *)

(** [open(path, "ab")] (or ["a"]): the file exists from then on. *)
Definition open_append (path : pystr) : M unit :=
  fun w => (Ok tt, set_fs (<[path := default [] (fs w !! path)]> (fs w)) w).

(** [open(path, "w")]: the file is emptied. *)
Definition open_truncate (path : pystr) : M unit :=
  fun w => (Ok tt, set_fs (<[path := []]> (fs w)) w).

(** [f.write(data)] on a file opened at [path]. *)
Definition file_write (path : pystr) (data : list N) : M unit :=
  fun w =>
    (Ok tt, set_fs (<[path := default [] (fs w !! path) ++ data]> (fs w)) w).

Definition _build_file_input (name : pystr) (value : pyval)
  : result (list N) :=
  result_bind (_escape_property (VStr name)) (fun n =>
  result_bind (_escape_data value) (fun v =>
  str_encode
    (n ++ lit "<<" ++ ACTION_ENV_DELIMITER ++ [10%N] ++
     v ++ [10%N] ++
     ACTION_ENV_DELIMITER ++ [10%N]))).

(** [with open(os.environ[variable], "ab") as f:
       f.write(_build_file_input(name, value))] *)
Definition append_file_input (variable name : pystr) (value : pyval)
  : M unit :=
  path <- environ_get variable ;;
  open_append path ;;;
  data <- lift (_build_file_input name value) ;;
  file_write path data.

Definition deprecated_use_subprocess (function : pystr)
    (use_subprocess : option bool) : M unit :=
  match use_subprocess with
  | Some _ =>
      warn (lit "Argument `use_subprocess` for `" ++ function ++
            lit "()` is deprecated and going to be removed in the next version.")
  | None => ret tt
  end.

Definition set_output (name : pystr) (value : pyval)
    (use_subprocess : option bool) : M unit :=
  deprecated_use_subprocess (lit "set_output") use_subprocess ;;;
  append_file_input (lit "GITHUB_OUTPUT") name value.

Definition save_state (name : pystr) (value : pyval)
    (use_subprocess : option bool) : M unit :=
  deprecated_use_subprocess (lit "save_state") use_subprocess ;;;
  append_file_input (lit "GITHUB_STATE") name value.

Definition set_env (name : pystr) (value : pyval) : M unit :=
  append_file_input (lit "GITHUB_ENV") name value.

(** Text mode: the text is written in UTF-8 and a line feed stays a line
    feed. *)
Definition append_job_summary (markdown_text : pystr) : M unit :=
  path <- environ_get (lit "GITHUB_STEP_SUMMARY") ;;
  open_append path ;;;
  data <- lift (str_encode (_clean_markdown_string markdown_text ++ [10%N])) ;;
  file_write path data.

Definition overwrite_job_summary (markdown_text : pystr) : M unit :=
  path <- environ_get (lit "GITHUB_STEP_SUMMARY") ;;
  open_truncate path ;;;
  data <- lift (str_encode (_clean_markdown_string markdown_text ++ [10%N])) ;;
  file_write path data.

Definition add_system_path (path : pystr) : M unit :=
  file <- environ_get (lit "GITHUB_PATH") ;;
  open_append file ;;;
  data <- lift (str_encode path) ;;
  file_write file data.

(** ** The state file reader *)

Definition marker : pystr := lit "<<" ++ ACTION_ENV_DELIMITER.

(** The loop of [get_workflow_environment_variables] over the lines that are
    left in the file.  [name] and [decoded_value] are the local variables of
    these names, [None] while they are unbound. *)
Fixpoint read_lines (file : list (list N)) (name decoded_value : option pystr)
    (environment_variable_dict : gmap pystr pystr)
  : result (gmap pystr pystr) :=
  match file with
  | [] => Ok environment_variable_dict
  | line :: file1 =>
      result_bind (bytes_decode line) (fun decoded_line =>
      if contains marker decoded_line then
        match split (lit "<<") (strip decoded_line) with
        | [] => Raise ValueError
        | name' :: _ =>
            match file1 with
            | [] => Ok environment_variable_dict
            | next_line :: file2 =>
                result_bind (bytes_decode next_line) (fun decoded_next =>
                let decoded_value' := strip decoded_next in
                read_lines file2 (Some name') (Some decoded_value')
                  (<[name' := decoded_value']> environment_variable_dict))
            end
        end
      else
        match decoded_value, name with
        | None, _ => Raise (UnboundLocalError (lit "decoded_value"))
        | Some _, None => Raise (UnboundLocalError (lit "name"))
        | Some v, Some n =>
            read_lines file1 name decoded_value
              (<[n := v]> environment_variable_dict)
        end)
  end.

Definition get_workflow_environment_variables : M (gmap pystr pystr) :=
  fun w =>
    match environ w !! lit "GITHUB_ENV" with
    | None => (Ok ∅, w)
    | Some path =>
        match fs w !! path with
        | None => (Raise (FileNotFoundError path), w)
        | Some content => (read_lines (file_lines content) None None ∅, w)
        end
    end.

(** ** The other commands and the environment readers *)

Definition echo (message : pyval) (use_subprocess : bool) : M unit :=
  message <- lift (py_str message) ;;
  emit use_subprocess message.

Definition warning (message : pystr) (title file : option pystr)
    (col end_column line end_line : option Z) (use_subprocess : bool)
  : M unit :=
  options <- lift (_build_options_string
                     (log_options title file col end_column line end_line)) ;;
  _print_command (lit "warning") (VStr message) options use_subprocess false.

Definition error (message : pystr) (title file : option pystr)
    (col end_column line end_line : option Z) (use_subprocess : bool)
  : M unit :=
  options <- lift (_build_options_string
                     (log_options title file col end_column line end_line)) ;;
  _print_command (lit "error") (VStr message) options use_subprocess false.

(** [os.environ.get(name)] *)
Definition environ_find (name : pystr) (w : world) : option pystr :=
  environ w !! name.

(** [os.environ.get(f"STATE_{name}")] *)
Definition get_state (name : pystr) : M (option pystr) :=
  fun w => (Ok (environ_find (lit "STATE_" ++ name) w), w).

(** [os.environ.get(f"INPUT_{name.upper()}")] *)
Definition get_user_input (name : pystr) : M (option pystr) :=
  fun w => (Ok (environ_find (lit "INPUT_" ++ upper name) w), w).

(** [os.environ.get(name) or get_workflow_environment_variables().get(name)]:
    the file is read when the variable is not set or is the empty string. *)
Definition get_env (name : pystr) : M (option pystr) :=
  fun w =>
    let from_file :=
      d <- get_workflow_environment_variables ;; ret (d !! name) in
    match environ_find name w with
    | Some value =>
        match value with
        | _ :: _ => (Ok (Some value), w)
        | [] => from_file w
        end
    | None => from_file w
    end.

(** [os.remove(path)] *)
Definition os_remove (path : pystr) : M unit :=
  fun w =>
    match fs w !! path with
    | Some _ => (Ok tt, set_fs (delete path (fs w)) w)
    | None => (Raise (FileNotFoundError path), w)
    end.

(** [try: os.remove(os.environ[...])  except (KeyError, FileNotFoundError): pass] *)
Definition remove_job_summary : M unit :=
  fun w =>
    match (path <- environ_get (lit "GITHUB_STEP_SUMMARY") ;;
           os_remove path) w with
    | (Raise (KeyError _), w') => (Ok tt, w')
    | (Raise (FileNotFoundError _), w') => (Ok tt, w')
    | outcome => outcome
    end.

(** ** Vocabulary of the statements *)

(** What [escape_text] puts in the place of one code point. *)
Definition escaped (c : N) : pystr :=
  if (c =? 37)%N then lit "%25"
  else if (c =? 13)%N then lit "%0D"
  else if (c =? 10)%N then lit "%0A"
  else [c].

(** Every [%] of [s] starts one of [%25], [%0D], [%0A]. *)
Fixpoint percent_in_triples (s : pystr) : bool :=
  match s with
  | [] => true
  | c :: s' =>
      if (c =? 37)%N then
        match s' with
        | a :: b :: s'' =>
            ((a =? 50) && (b =? 53) || (a =? 48) && (b =? 68) ||
             (a =? 48) && (b =? 65))%N && percent_in_triples s''
        | _ => false
        end
      else percent_in_triples s'
  end.

(** [escaped] once [%25] is decoded, and once [%0D] is decoded too. *)
Definition escaped_cr_lf (c : N) : pystr :=
  if (c =? 13)%N then lit "%0D"
  else if (c =? 10)%N then lit "%0A"
  else [c].

Definition escaped_lf (c : N) : pystr :=
  if (c =? 10)%N then lit "%0A" else [c].

(** The token that [begin_stop_commands] uses. *)
Definition stop_token (token : option pystr) (w : world) : pystr :=
  if falsy token then str_uuid (uuid_source w (uuid_calls w))
  else default [] token.

(** The world once [begin_stop_commands] has drawn its token. *)
Definition token_drawn (token : option pystr) (w : world) : world :=
  if falsy token then set_uuid_calls (S (uuid_calls w)) w else w.

(** The keys [json.dumps] accepts in a dict: [None], a [bool], an [int], a
    [float] or text. *)
Definition json_key (k : pyval) : bool :=
  match k with
  | VNone | VBool _ | VInt _ | VFloat _ | VStr _ => true
  | VList _ | VTuple _ | VDict _ | VObject _ => false
  end.

(** The values [json.dumps] can encode: [None], a [bool], an [int], a
    [float], text, and a list, a tuple or a dict with no object of another
    type anywhere inside and no dict key of another type. *)
Fixpoint serializable (v : pyval) : bool :=
  match v with
  | VNone | VBool _ | VInt _ | VFloat _ | VStr _ => true
  | VList items | VTuple items => forallb serializable items
  | VDict entries =>
      forallb (fun entry => json_key (fst entry) && serializable (snd entry))
        entries
  | VObject _ => false
  end.

(** How deep the containers of a value are nested. *)
Fixpoint depth (v : pyval) : nat :=
  match v with
  | VList items | VTuple items => S (list_max (map depth items))
  | VDict entries => S (list_max (map (fun entry => depth (snd entry)) entries))
  | _ => 0
  end.

(** The inputs on which the escapers return: a container that [json.dumps]
    can encode, and anything else but an object whose [__str__] raises. *)
Definition coercible (data : pyval) : bool :=
  if is_container data then serializable data
  else
    match data with
    | VObject (Raise _) => false
    | _ => true
    end.

(** [None], a [bool], a number or text. *)
Definition is_scalar (value : pyval) : bool :=
  match value with
  | VNone | VBool _ | VInt _ | VFloat _ | VStr _ => true
  | VList _ | VTuple _ | VDict _ | VObject _ => false
  end.

(** The text of [str(value)], where it returns one. *)
Definition str_text (value : pyval) : pystr :=
  match py_str value with
  | Ok text => text
  | Raise _ => []
  end.

(** The text of one block of an append file, from the escaped key and the
    escaped value. *)
Definition block_text (key value : pystr) : pystr :=
  key ++ lit "<<" ++ ACTION_ENV_DELIMITER ++ [10%N] ++
  value ++ [10%N] ++
  ACTION_ENV_DELIMITER ++ [10%N].

Definition blocks_text (blocks : list (pystr * pystr)) : pystr :=
  flat_map (fun block => block_text (fst block) (snd block)) blocks.

(** The name the reader takes from a header line, and what it makes of the
    key line and of the value line of a block. *)
Definition header_name (decoded_line : pystr) : pystr :=
  hd [] (split (lit "<<") (strip decoded_line)).

Definition key_read (key : pystr) : pystr :=
  header_name (key ++ marker ++ [10%N]).

Definition value_read (value : pystr) : pystr := strip (value ++ [10%N]).

Definition entries_read (blocks : list (pystr * pystr))
  : list (pystr * pystr) :=
  map (fun block => (key_read (fst block), value_read (snd block))) blocks.

(** The value written last for [key], if any was. *)
Fixpoint last_written (key : pystr) (pairs : list (pystr * pystr))
  : option pystr :=
  match pairs with
  | [] => None
  | (k, v) :: pairs' =>
      match last_written key pairs' with
      | Some v' => Some v'
      | None => if decide (k = key) then Some v else None
      end
  end.

(** The mapping that assignments in the order of [pairs] build from [d]. *)
Definition assign_all (pairs : list (pystr * pystr)) (d : gmap pystr pystr)
  : gmap pystr pystr :=
  fold_left (fun d kv => <[fst kv := snd kv]> d) pairs d.

(** [set_env] for each pair, in order. *)
Fixpoint set_env_each (pairs : list (pystr * pystr)) : M unit :=
  match pairs with
  | [] => ret tt
  | (name, value) :: pairs' =>
      set_env name (VStr value) ;;; set_env_each pairs'
  end.

(** Text that goes through escaping, UTF-8 and [strip] unchanged: it can be
    encoded, has none of the given characters, and neither starts nor ends
    with white space. *)
Definition without (chars : list N) (s : pystr) : bool :=
  forallb (fun c => negb (existsb (N.eqb c) chars)) s.

Definition encodable (s : pystr) : bool :=
  match Utf8.encode s with
  | Some _ => true
  | None => false
  end.

Definition no_outer_space (s : pystr) : bool :=
  match s with [] => true | c :: _ => negb (is_space c) end &&
  match rev s with [] => true | c :: _ => negb (is_space c) end.

Definition plain_value (value : pystr) : bool :=
  encodable value && without [37; 13; 10]%N value && no_outer_space value.

(** A key must also have no [:], no [,], no [<<], and no [<] at its end. *)
Definition plain_key (key : pystr) : bool :=
  encodable key && without [37; 13; 10; 58; 44]%N key &&
  no_outer_space key && negb (contains (lit "<<") (key ++ lit "<")).

(** What [_escape_property] puts in the place of one code point, and what
    it makes of a text. *)
Definition escaped_property (c : N) : pystr :=
  if (c =? 37)%N then lit "%25"
  else if (c =? 13)%N then lit "%0D"
  else if (c =? 10)%N then lit "%0A"
  else if (c =? 58)%N then lit "%3A"
  else if (c =? 44)%N then lit "%2C"
  else [c].

Definition escape_property_text (s : pystr) : pystr :=
  replace (lit ",") (lit "%2C") (replace (lit ":") (lit "%3A") (escape_text s)).

(** The characters [_escape_data] replaces. *)
Definition special (c : N) : bool :=
  ((c =? 37) || (c =? 13) || (c =? 10))%N.

(** Text of ASCII characters only. *)
Definition ascii_text (s : pystr) : bool := forallb (fun c => c <? 128)%N s.

(** What a call that appends a block for [name] and [value] to the file at
    [path] leaves behind, from the world [w]: the old content followed by the
    block, or by nothing when the block cannot be built; a file that was
    not there exists afterwards; no other file and no output changes. *)
Definition appended_block (path name : pystr) (value : pyval) (w : world)
    (outcome : result unit * world) : Prop :=
  exists suffix,
    (fs (snd outcome) =
       <[path := default [] (fs w !! path) ++ suffix]> (fs w)) /\
    environ (snd outcome) = environ w /\
    stdout (snd outcome) = stdout w /\
    match _build_file_input name value with
    | Ok data => fst outcome = Ok tt /\ suffix = data
    | Raise e => fst outcome = Raise e /\ suffix = []
    end.

(** Text of the printable ASCII characters, space to [~]. *)
Definition printable (s : pystr) : bool :=
  forallb (fun c => (32 <=? c) && (c <=? 126))%N s.

(** A non-empty word of the letters [a] to [z]. *)
Definition lower_word (word : pystr) : bool :=
  match word with
  | [] => false
  | _ :: _ => forallb is_lower word
  end.

(** The part of an option string that one present option gives. *)
Definition option_part (kv : pystr * pyval) : pystr :=
  _to_camel_case (fst kv) ++ lit "=" ++
  escape_property_text (str_text (snd kv)).

(** A word with its first letter in upper case. *)
Definition capitalize (word : pystr) : pystr :=
  match word with
  | [] => []
  | c :: word' => to_upper c :: word'
  end.

(** ** Facts about text *)

(** Source literals as lists of code points. *)
Ltac eval_lits :=
  repeat match goal with
  | |- context [lit ?s] =>
      let x := eval vm_compute in (lit s) in change (lit s) with x
  | H : context [lit ?s] |- _ =>
      let x := eval vm_compute in (lit s) in change (lit s) with x in H
  end.

Lemma replace_single (a : N) (new s : pystr) :
  replace [a] new s = flat_map (fun c => if (a =? c)%N then new else [c]) s.
Proof.
  unfold replace. induction s as [|c s IH]; cbn [replace_from flat_map]; [done|].
  cbn [starts_with length Nat.sub]. rewrite andb_true_r.
  destruct (a =? c)%N; cbn [app]; by rewrite IH.
Qed.

Lemma escape_text_escaped (s : pystr) : escape_text s = flat_map escaped s.
Proof.
  unfold escape_text. eval_lits. rewrite !replace_single.
  induction s as [|c s IH]; cbn [flat_map]; [done|].
  rewrite !flat_map_app, IH. f_equal. unfold escaped. eval_lits.
  destruct (N.eqb_spec 37 c) as [<-|H37]; [done|].
  rewrite (proj2 (N.eqb_neq c 37)) by done. cbn [flat_map app].
  destruct (N.eqb_spec 13 c) as [<-|H13]; [done|].
  rewrite (proj2 (N.eqb_neq c 13)) by done. cbn [flat_map app].
  destruct (N.eqb_spec 10 c) as [<-|H10]; [done|].
  by rewrite (proj2 (N.eqb_neq c 10)) by done.
Qed.

Lemma escaped_no_raw (c x : N) :
  x = 13%N \/ x = 10%N -> x ∉ escaped c.
Proof.
  intros Hx Hin. unfold escaped in Hin. eval_lits.
  destruct (N.eqb_spec c 37); [|destruct (N.eqb_spec c 13);
    [|destruct (N.eqb_spec c 10)]];
    rewrite ?elem_of_cons, elem_of_nil in Hin; lia.
Qed.

Lemma flat_map_escaped_no_raw (s : pystr) (x : N) :
  x = 13%N \/ x = 10%N -> x ∉ flat_map escaped s.
Proof.
  intros Hx Hin. apply list_elem_of_In, in_flat_map in Hin as [c [_ Hc]].
  by apply (escaped_no_raw c x Hx), list_elem_of_In.
Qed.

Lemma percent_in_triples_escaped (s : pystr) :
  percent_in_triples (flat_map escaped s) = true.
Proof.
  induction s as [|c s IH]; [done|]. cbn [flat_map]. unfold escaped at 1.
  eval_lits.
  destruct (N.eqb_spec c 37) as [->|H37]; [exact IH|].
  destruct (N.eqb_spec c 13) as [->|H13]; [exact IH|].
  destruct (N.eqb_spec c 10) as [->|H10]; [exact IH|].
  cbn [app percent_in_triples]. by rewrite (proj2 (N.eqb_neq c 37)).
Qed.

Lemma starts_with_app (pat s : pystr) : starts_with pat (pat ++ s) = true.
Proof.
  induction pat as [|p pat IH]; [done|].
  cbn [app starts_with]. by rewrite N.eqb_refl, IH.
Qed.

Lemma starts_with_cons (p c : N) (pat s : pystr) :
  starts_with (p :: pat) (c :: s) = (p =? c)%N && starts_with pat s.
Proof. done. Qed.

Lemma replace_from_skip (old new pre rest : pystr) :
  replace_from old new (length pre) (pre ++ rest) = replace_from old new 0 rest.
Proof. induction pre as [|c pre IH]; [done|]. exact IH. Qed.

Lemma replace_hit (p : N) (old new s : pystr) :
  replace (p :: old) new ((p :: old) ++ s) = new ++ replace (p :: old) new s.
Proof.
  unfold replace. cbn [app replace_from].
  change (p :: old ++ s) with ((p :: old) ++ s).
  rewrite starts_with_app. cbn [length Nat.sub]. rewrite Nat.sub_0_r.
  by rewrite replace_from_skip.
Qed.

Lemma replace_miss (p c : N) (old new s : pystr) :
  starts_with (p :: old) (c :: s) = false ->
  replace (p :: old) new (c :: s) = c :: replace (p :: old) new s.
Proof. intros H. unfold replace. cbn [replace_from]. by rewrite H. Qed.

Lemma contains_cons_false (pat : pystr) (c : N) (s : pystr) :
  contains pat (c :: s) = false ->
  starts_with pat (c :: s) = false /\ contains pat s = false.
Proof. cbn [contains]. by intros [? ?]%orb_false_iff. Qed.

(** A pattern that avoids the characters an escaping touches, and the
    [%] it introduces, matches the escaped text where it matches the
    text. *)
Lemma starts_with_flat_map (f : N -> pystr) (pat s : pystr) :
  (forall c, f c = [c] \/
             exists h t, f c = h :: t /\ (h ∉ pat) /\ (c ∉ pat)) ->
  starts_with pat (flat_map f s) = starts_with pat s.
Proof.
  intros Hf. revert s. induction pat as [|p pat IH]; intros s; [done|].
  destruct s as [|c s]; [done|]. cbn [flat_map].
  destruct (Hf c) as [-> | (h & t & -> & Hh & Hc)].
  - cbn [app starts_with]. f_equal. apply IH.
    intros c'. destruct (Hf c') as [? | (h & t & ? & Hh & Hc)]; [by left|].
    right. exists h, t.
    apply not_elem_of_cons in Hh. apply not_elem_of_cons in Hc. tauto.
  - cbn [app starts_with].
    apply not_elem_of_cons in Hh. apply not_elem_of_cons in Hc.
    rewrite (proj2 (N.eqb_neq p h)), (proj2 (N.eqb_neq p c)) by (intros ->; tauto).
    done.
Qed.

Lemma escaped_cr_lf_shape (c : N) :
  escaped_cr_lf c = [c] \/
  exists h t,
    escaped_cr_lf c = h :: t /\ (h ∉ [48; 68]%N) /\ (c ∉ [48; 68]%N).
Proof.
  unfold escaped_cr_lf. eval_lits.
  destruct (N.eqb_spec c 13) as [->|?];
    [|destruct (N.eqb_spec c 10) as [->|?]; [|by left]];
    right; eexists _, _; (split; [done|]);
    rewrite !not_elem_of_cons, !elem_of_nil; lia.
Qed.

Lemma escaped_lf_shape (c : N) :
  escaped_lf c = [c] \/
  exists h t,
    escaped_lf c = h :: t /\ (h ∉ [48; 65]%N) /\ (c ∉ [48; 65]%N).
Proof.
  unfold escaped_lf. eval_lits.
  destruct (N.eqb_spec c 10) as [->|?]; [|by left].
  right; eexists _, _; (split; [done|]).
  rewrite !not_elem_of_cons, !elem_of_nil; lia.
Qed.

Lemma decode_percent (s : pystr) :
  replace (lit "%25") (lit "%") (flat_map escaped s) =
  flat_map escaped_cr_lf s.
Proof.
  eval_lits. induction s as [|c s IH]; [done|]. cbn [flat_map].
  unfold escaped at 1, escaped_cr_lf at 1. eval_lits.
  destruct (N.eqb_spec c 37) as [->|H37].
  - rewrite replace_hit, IH. done.
  - destruct (N.eqb_spec c 13) as [->|H13];
      [|destruct (N.eqb_spec c 10) as [->|H10]]; cbn [app];
      rewrite ?replace_miss, IH; try done.
    cbn [starts_with]. by rewrite (proj2 (N.eqb_neq 37 c)).
Qed.

Lemma decode_cr (s : pystr) :
  contains (lit "%0D") s = false ->
  replace (lit "%0D") [13%N] (flat_map escaped_cr_lf s) = flat_map escaped_lf s.
Proof.
  eval_lits. induction s as [|c s IH]; [done|].
  intros [Hc Hs]%contains_cons_false. cbn [flat_map].
  unfold escaped_cr_lf at 1, escaped_lf at 1. eval_lits.
  destruct (N.eqb_spec c 13) as [->|H13].
  - rewrite replace_hit, IH by done.
    by rewrite (proj2 (N.eqb_neq 13 10)).
  - destruct (N.eqb_spec c 10) as [->|H10]; cbn [app].
    + rewrite !replace_miss, IH; done.
    + rewrite replace_miss, IH; [done..|].
      rewrite starts_with_cons in Hc |- *.
      by rewrite (starts_with_flat_map _ _ _ escaped_cr_lf_shape).
Qed.

Lemma decode_lf (s : pystr) :
  contains (lit "%0A") s = false ->
  replace (lit "%0A") [10%N] (flat_map escaped_lf s) = s.
Proof.
  eval_lits. induction s as [|c s IH]; [done|].
  intros [Hc Hs]%contains_cons_false. cbn [flat_map].
  unfold escaped_lf at 1. eval_lits.
  destruct (N.eqb_spec c 10) as [->|H10].
  - rewrite replace_hit, IH by done. done.
  - cbn [app]. rewrite replace_miss, IH; [done..|].
    rewrite starts_with_cons in Hc |- *.
    by rewrite (starts_with_flat_map _ _ _ escaped_lf_shape).
Qed.

Lemma clean_escape_text (s : pystr) :
  contains (lit "%0D") s = false ->
  contains (lit "%0A") s = false ->
  _clean_markdown_string (escape_text s) = s.
Proof.
  intros Hcr Hlf. unfold _clean_markdown_string.
  by rewrite escape_text_escaped, decode_percent, decode_cr, decode_lf.
Qed.

(** ** The escaper: claim C3 *)

(** C3, as amended.  For every text [s] the output of [_escape_data] has no
    carriage return and no line feed, and each [%] in it starts one of
    [%25], [%0D], [%0A].  [_clean_markdown_string] gives [s] back when [s]
    has no occurrence of [%0D] or [%0A] (whether or not it has [:] or [,]). *)
Theorem escape_data_output_and_round_trip (s : pystr) :
  _escape_data (VStr s) = Ok (escape_text s) /\
  (13%N ∉ escape_text s) /\ (10%N ∉ escape_text s) /\
  percent_in_triples (escape_text s) = true /\
  (contains (lit "%0D") s = false -> contains (lit "%0A") s = false ->
   _clean_markdown_string (escape_text s) = s).
Proof.
  split; [done|]. rewrite escape_text_escaped.
  split; [apply flat_map_escaped_no_raw; auto|].
  split; [apply flat_map_escaped_no_raw; auto|].
  split; [apply percent_in_triples_escaped|].
  rewrite <- escape_text_escaped. apply clean_escape_text.
Qed.

(** ** The command line: claims C4 and C5 *)

(** C4.  With no options the line that [_print_command] writes has a space
    between the command name and the second [::]: [debug] writes
    [::debug ::{message}], where its docstring gives the template
    [::debug::{message}]. *)
Theorem command_line_without_options_has_space (command message : pystr)
    (use_subprocess : bool) (w : world) :
  _print_command command (VStr message) [] use_subprocess false w =
    (Ok tt,
     set_stdout
       (stdout w ++
        [written use_subprocess w
           (lit "::" ++ command ++ lit " ::" ++ message)]) w) /\
  debug message use_subprocess w =
    (Ok tt,
     set_stdout
       (stdout w ++ [written use_subprocess w (lit "::debug ::" ++ message)])
       w).
Proof.
  split.
  - unfold _print_command, bind, lift, emit. cbn [py_str].
    reflexivity.
  - reflexivity.
Qed.

(** C5.  [notice(message="Missing semicolon", file="app.js", line=1, col=5,
    end_column=7)] writes exactly
    [::notice file=app.js,col=5,endColumn=7,line=1::Missing semicolon]: the
    options that are left out do not appear, [end_column] is written
    [endColumn], the order is that of the call in [notice], and the message
    is not escaped. *)
Theorem notice_missing_semicolon (use_subprocess : bool) (w : world) :
  notice (lit "Missing semicolon") None (Some (lit "app.js"))
    (Some 5%Z) (Some 7%Z) (Some 1%Z) None use_subprocess w =
  (Ok tt,
   set_stdout
     (stdout w ++
      [written use_subprocess w
         (lit "::notice file=app.js,col=5,endColumn=7,line=1::Missing semicolon")])
     w).
Proof. reflexivity. Qed.

(** ** Scoped helpers: claims C1 and C10 *)

Lemma length_hex_fixed (width : nat) (n : N) :
  length (hex_fixed width n) = width.
Proof.
  revert n. induction width as [|width IH]; intros n; [done|].
  cbn [hex_fixed]. rewrite length_app, IH. cbn [length]. lia.
Qed.

Lemma length_str_uuid (n : N) : length (str_uuid n) = 36.
Proof.
  unfold str_uuid. cbv zeta.
  rewrite !length_app, !length_take, !length_drop, length_hex_fixed.
  reflexivity.
Qed.

Lemma written_token_drawn (token : option pystr) (use_subprocess : bool)
    (w : world) (line : pystr) :
  written use_subprocess (token_drawn token w) line =
  written use_subprocess w line.
Proof. unfold token_drawn. by destruct (falsy token). Qed.

Lemma begin_stop_commands_run (token : option pystr) (use_subprocess : bool)
    (w : world) :
  begin_stop_commands token use_subprocess w =
  (Ok (stop_token token w),
   set_stdout
     (stdout w ++
      [written use_subprocess w
         (lit "::stop-commands ::" ++ stop_token token w)])
     (token_drawn token w)).
Proof.
  unfold begin_stop_commands, stop_token, token_drawn.
  destruct (falsy token); reflexivity.
Qed.


(** C10.  Called with [None] or with the empty string, [begin_stop_commands]
    draws a token from [uuid.uuid1()], writes it in the begin line and
    returns it; the token has 36 characters, so it is not the empty string
    of the caller.  [stop_commands] closes with the same token. *)
Theorem begin_stop_commands_generates_token (token : option pystr)
    (use_subprocess : bool) (w : world) :
  token = None \/ token = Some [] ->
  let generated := str_uuid (uuid_source w (uuid_calls w)) in
  begin_stop_commands token use_subprocess w =
    (Ok generated,
     set_stdout
       (stdout w ++
        [written use_subprocess w (lit "::stop-commands ::" ++ generated)])
       (set_uuid_calls (S (uuid_calls w)) w)) /\
  length generated = 36 /\
  Some generated <> token /\
  stdout (snd (stop_commands token use_subprocess (ret tt) w)) =
    stdout w ++
    [written use_subprocess w (lit "::stop-commands ::" ++ generated);
     written use_subprocess w (lit "::" ++ generated ++ lit "::")].
Proof.
  intros Htoken generated.
  assert (length generated = 36) as Hlen by apply length_str_uuid.
  assert (falsy token = true) as Hfalsy by (by destruct Htoken as [-> | ->]).
  split; [|split; [done|split]].
  - rewrite begin_stop_commands_run. unfold stop_token, token_drawn.
    by rewrite Hfalsy.
  - destruct Htoken as [-> | ->]; [done|].
    intros Heq. assert (generated = []) as Hnil by congruence.
    rewrite Hnil in Hlen. discriminate Hlen.
  - unfold stop_commands, with_contextmanager.
    cbn [before_yield after_yield stop_commands_generator].
    rewrite begin_stop_commands_run. unfold stop_token, token_drawn.
    rewrite Hfalsy. cbn. by rewrite <- app_assoc.
Qed.

(** ** A missing path variable: claim C6 *)

Lemma append_file_input_missing (variable name : pystr) (value : pyval)
    (w : world) :
  environ w !! variable = None ->
  append_file_input variable name value w = (Raise (KeyError variable), w).
Proof.
  intros H. unfold append_file_input, bind, environ_get. by rewrite H.
Qed.

Lemma deprecated_use_subprocess_run (function : pystr)
    (use_subprocess : option bool) (w : world) :
  exists w', deprecated_use_subprocess function use_subprocess w = (Ok tt, w') /\
             environ w' = environ w /\ fs w' = fs w.
Proof. destruct use_subprocess; eexists; (split; [reflexivity|done]). Qed.

(** C6.  When the variable that names its file is not in the environment,
    each operation that writes a file raises [KeyError] for that variable and
    leaves every file as it was; [get_workflow_environment_variables]
    returns the empty mapping when [GITHUB_ENV] is not set. *)
Theorem missing_path_variable (name : pystr) (value : pyval)
    (use_subprocess : option bool) (text : pystr) (w : world) :
  (environ w !! lit "GITHUB_OUTPUT" = None ->
   fst (set_output name value use_subprocess w) =
     Raise (KeyError (lit "GITHUB_OUTPUT")) /\
   fs (snd (set_output name value use_subprocess w)) = fs w) /\
  (environ w !! lit "GITHUB_STATE" = None ->
   fst (save_state name value use_subprocess w) =
     Raise (KeyError (lit "GITHUB_STATE")) /\
   fs (snd (save_state name value use_subprocess w)) = fs w) /\
  (environ w !! lit "GITHUB_ENV" = None ->
   set_env name value w = (Raise (KeyError (lit "GITHUB_ENV")), w) /\
   get_workflow_environment_variables w = (Ok ∅, w)) /\
  (environ w !! lit "GITHUB_STEP_SUMMARY" = None ->
   append_job_summary text w =
     (Raise (KeyError (lit "GITHUB_STEP_SUMMARY")), w) /\
   overwrite_job_summary text w =
     (Raise (KeyError (lit "GITHUB_STEP_SUMMARY")), w)) /\
  (environ w !! lit "GITHUB_PATH" = None ->
   add_system_path text w = (Raise (KeyError (lit "GITHUB_PATH")), w)).
Proof.
  split; [|split; [|split; [|split]]]; intros Hmissing.
  - destruct (deprecated_use_subprocess_run (lit "set_output") use_subprocess w)
      as (w' & Hrun & Henv & Hfs).
    assert (set_output name value use_subprocess w =
            (Raise (KeyError (lit "GITHUB_OUTPUT")), w')) as ->; [|by split].
    unfold set_output, bind. rewrite Hrun.
    by rewrite append_file_input_missing by congruence.
  - destruct (deprecated_use_subprocess_run (lit "save_state") use_subprocess w)
      as (w' & Hrun & Henv & Hfs).
    assert (save_state name value use_subprocess w =
            (Raise (KeyError (lit "GITHUB_STATE")), w')) as ->; [|by split].
    unfold save_state, bind. rewrite Hrun.
    by rewrite append_file_input_missing by congruence.
  - split; [by apply append_file_input_missing|].
    unfold get_workflow_environment_variables. by rewrite Hmissing.
  - unfold append_job_summary, overwrite_job_summary, bind, environ_get.
    by rewrite Hmissing.
  - unfold add_system_path, bind, environ_get. by rewrite Hmissing.
Qed.

(** ** A first line without the marker: claim C9 *)

(** C9.  When the first line of the file is valid UTF-8 and does not contain
    [<<__ENV_DELIMITER__], [get_workflow_environment_variables] raises
    [UnboundLocalError] instead of skipping the line: the assignment to the
    mapping is reached with [decoded_value] and [name] not yet bound, and
    its right-hand side, [decoded_value], is evaluated first. *)
Theorem first_line_without_marker_raises (w : world) (path : pystr)
    (content line : list N) (rest : list (list N)) (text : pystr) :
  environ w !! lit "GITHUB_ENV" = Some path ->
  fs w !! path = Some content ->
  file_lines content = line :: rest ->
  Utf8.decode line = Some text ->
  contains marker text = false ->
  get_workflow_environment_variables w =
    (Raise (UnboundLocalError (lit "decoded_value")), w).
Proof.
  intros Henv Hfile Hlines Hdecode Hmarker.
  unfold get_workflow_environment_variables. rewrite Henv, Hfile, Hlines.
  cbn [read_lines]. unfold bytes_decode. rewrite Hdecode.
  cbn [result_bind]. by rewrite Hmarker.
Qed.

(** ** Coercion to text: claim C8 *)

(** [result_mapM] over a list whose elements all return, or raise the same
    exception when they fail the test [p]: it returns when every element
    passes, and raises that exception otherwise. *)
Lemma result_mapM_outcome {A B} (p : A -> bool) (f : A -> result B)
    (e : exn) (l : list A) :
  Forall (fun x => if p x then exists y, f x = Ok y else f x = Raise e) l ->
  if forallb p l then exists ys, result_mapM f l = Ok ys
  else result_mapM f l = Raise e.
Proof.
  induction 1 as [|x l Hx _ IH]; [by exists []|].
  cbn [forallb result_mapM]. destruct (p x).
  - destruct Hx as [y ->]. cbn [andb result_bind].
    destruct (forallb p l).
    + destruct IH as [ys ->]. by exists (y :: ys).
    + by rewrite IH.
  - by rewrite Hx.
Qed.

Lemma encode_key_outcome (k : pyval) :
  if json_key k then exists s, Json.encode_key k = Ok s
  else Json.encode_key k = Raise TypeError.
Proof. destruct k as [|[]| | | | | | |]; cbn; eauto. Qed.

Lemma list_max_bound {A} (f : A -> nat) (l : list A) (n : nat) (x : A) :
  list_max (map f l) <= n -> In x l -> f x <= n.
Proof.
  intros Hmax Hin. apply list_max_le in Hmax.
  rewrite List.Forall_forall in Hmax. apply Hmax. by apply in_map.
Qed.

(** [json.dumps] returns on the values that are [serializable] and raises
    [TypeError] on every other value. *)
Lemma dumps_outcome_depth (n : nat) (v : pyval) :
  depth v <= n ->
  if serializable v then exists s, Json.dumps v = Ok s
  else Json.dumps v = Raise TypeError.
Proof.
  revert v. induction n as [|n IH]; intros v Hdepth;
    destruct v as [|[]| | | |items|items|entries|];
    cbn [Json.dumps depth serializable] in *; eauto; try lia.
  - pose proof (result_mapM_outcome serializable Json.dumps TypeError items)
      as Hitems.
    destruct (forallb serializable items).
    + destruct Hitems as [parts ->]; [|cbn; eauto].
      apply List.Forall_forall. intros x Hx. apply IH.
      apply (list_max_bound depth items n x); [lia|done].
    + rewrite Hitems; [done|].
      apply List.Forall_forall. intros x Hx. apply IH.
      apply (list_max_bound depth items n x); [lia|done].
  - pose proof (result_mapM_outcome serializable Json.dumps TypeError items)
      as Hitems.
    destruct (forallb serializable items).
    + destruct Hitems as [parts ->]; [|cbn; eauto].
      apply List.Forall_forall. intros x Hx. apply IH.
      apply (list_max_bound depth items n x); [lia|done].
    + rewrite Hitems; [done|].
      apply List.Forall_forall. intros x Hx. apply IH.
      apply (list_max_bound depth items n x); [lia|done].
  - match goal with
    | |- context [result_mapM ?f entries] =>
        pose proof (result_mapM_outcome
                      (fun entry => json_key (fst entry) &&
                                    serializable (snd entry))
                      f TypeError entries) as Hentries
    end.
    assert (Forall
              (fun entry : pyval * pyval =>
                 if json_key (fst entry) && serializable (snd entry)
                 then exists y,
                   result_bind (Json.encode_key (fst entry)) (fun k =>
                   result_bind (Json.dumps (snd entry)) (fun x =>
                   Ok (k ++ lit ": " ++ x))) = Ok y
                 else
                   result_bind (Json.encode_key (fst entry)) (fun k =>
                   result_bind (Json.dumps (snd entry)) (fun x =>
                   Ok (k ++ lit ": " ++ x))) = Raise TypeError)
              entries) as Heach.
    { apply List.Forall_forall. intros [k x] Hx. cbn [fst snd].
      pose proof (encode_key_outcome k) as Hk.
      assert (depth x <= n) as Hx'
        by (apply (list_max_bound (fun entry => depth (snd entry))
                     entries n (k, x)); [lia|done]).
      pose proof (IH x Hx') as Hxs.
      destruct (json_key k); cbn [andb]; [|by rewrite Hk].
      destruct Hk as [ks ->]. cbn [result_bind].
      destruct (serializable x); [|by rewrite Hxs].
      destruct Hxs as [xs ->]. cbn [result_bind]. eauto. }
    specialize (Hentries Heach).
    destruct (forallb _ entries).
    + destruct Hentries as [parts ->]. cbn; eauto.
    + by rewrite Hentries.
Qed.

Lemma dumps_outcome (v : pyval) :
  if serializable v then exists s, Json.dumps v = Ok s
  else Json.dumps v = Raise TypeError.
Proof. by apply (dumps_outcome_depth (depth v)). Qed.

(** C8, as amended.  The input is first coerced to text, a list, tuple or
    dict through [json.dumps] and anything else through [str()], and then
    transformed; the escapers return exactly when this coercion returns.
    On a list, tuple or dict that [json.dumps] can encode, and on anything
    else that is not a container unless its [__str__] raises,
    [_escape_data] and [_escape_property] return the transformed text of
    the coercion.  On every other list, tuple or dict (one that holds,
    at any depth, an object that is not [None], a [bool], an [int], a
    [float], text or such a container, or a dict key that is not [None], a
    [bool], an [int], a [float] or text) both raise [TypeError], and on an
    object whose [__str__] raises both raise that exception. *)
Theorem escapers_return_iff_coercible (data : pyval) :
  if coercible data then
    exists text,
      (if is_container data then Json.dumps data = Ok text
       else py_str data = Ok text) /\
      _make_string data = Ok text /\
      _escape_data data = Ok (escape_text text) /\
      _escape_property data =
        Ok (replace (lit ",") (lit "%2C")
              (replace (lit ":") (lit "%3A") (escape_text text)))
  else
    exists e,
      (if is_container data then e = TypeError
       else data = VObject (Raise e)) /\
      _make_string data = Raise e /\
      _escape_data data = Raise e /\
      _escape_property data = Raise e.
Proof.
  unfold coercible, _escape_property, _escape_data, _make_string.
  destruct (is_container data) eqn:Hcontainer.
  - pose proof (dumps_outcome data) as Hdumps.
    destruct (serializable data).
    + destruct Hdumps as [s ->]. by exists s.
    + rewrite Hdumps. by exists TypeError.
  - destruct data as [|[]| | | | | | |[text|e]]; try discriminate;
      cbn [py_str result_bind]; eauto.
Qed.

(** ** UTF-8 round trip *)

Ltac Zify.zify_post_hook ::= Z.to_euclidean_division_equations.

(** Decide the comparisons of the goal by arithmetic. *)
Ltac bool_N :=
  repeat match goal with
  | |- context [(?a <? ?b)%N] =>
      first [rewrite (proj2 (N.ltb_lt a b)) by lia
            |rewrite (proj2 (N.ltb_ge a b)) by lia]
  | |- context [(?a <=? ?b)%N] =>
      first [rewrite (proj2 (N.leb_le a b)) by lia
            |rewrite (proj2 (N.leb_gt a b)) by lia]
  end.

Lemma decode_encode_char (c : N) (bs rest : list N) :
  Utf8.encode_char c = Some bs ->
  Utf8.decode (bs ++ rest) = option_map (cons c) (Utf8.decode rest).
Proof.
  unfold Utf8.encode_char.
  destruct (N.ltb_spec c 0x80); [intros [= <-]|].
  { cbn [app Utf8.decode]. by bool_N. }
  destruct (N.ltb_spec c 0x800); [intros [= <-]|].
  { cbn [app Utf8.decode]. unfold Utf8.continuation. bool_N. cbn [andb].
    by replace ((0xC0 + c / 64 - 0xC0) * 64 + (0x80 + c mod 64 - 0x80))%N
      with c by lia. }
  destruct (N.ltb_spec c 0x10000).
  { destruct (N.leb_spec 0xD800 c); cbn [andb];
      [destruct (N.leb_spec c 0xDFFF); [done|]|];
      intros [= <-]; cbn [app Utf8.decode]; unfold Utf8.continuation;
      replace ((0xE0 + c / 4096 - 0xE0) * 4096 +
               (0x80 + (c / 64) mod 64 - 0x80) * 64 +
               (0x80 + c mod 64 - 0x80))%N with c by lia;
      by bool_N. }
  destruct (N.ltb_spec c 0x110000); [intros [= <-]|done].
  cbn [app Utf8.decode]. unfold Utf8.continuation.
  replace ((0xF0 + c / 262144 - 0xF0) * 262144 +
           (0x80 + (c / 4096) mod 64 - 0x80) * 4096 +
           (0x80 + (c / 64) mod 64 - 0x80) * 64 +
           (0x80 + c mod 64 - 0x80))%N with c by lia.
  by bool_N.
Qed.

Lemma decode_encode_app (s : pystr) (bs rest : list N) :
  Utf8.encode s = Some bs ->
  Utf8.decode (bs ++ rest) = option_map (app s) (Utf8.decode rest).
Proof.
  revert bs. induction s as [|c s IH]; intros bs.
  - intros [= <-]. cbn [app]. by destruct (Utf8.decode rest).
  - cbn [Utf8.encode].
    destruct (Utf8.encode_char c) as [b|] eqn:Hc; [|done].
    destruct (Utf8.encode s) as [bs'|]; [|done]. intros [= <-].
    rewrite <- app_assoc, (decode_encode_char c b _ Hc), (IH bs' eq_refl).
    by destruct (Utf8.decode rest).
Qed.

Lemma decode_encode (s : pystr) (bs : list N) :
  Utf8.encode s = Some bs -> Utf8.decode bs = Some s.
Proof.
  intros H. rewrite <- (app_nil_r bs), (decode_encode_app s bs [] H).
  cbn. by rewrite app_nil_r.
Qed.

Lemma encode_app (a b : pystr) :
  Utf8.encode (a ++ b) =
  match Utf8.encode a, Utf8.encode b with
  | Some x, Some y => Some (x ++ y)
  | _, _ => None
  end.
Proof.
  induction a as [|c a IH]; cbn [app Utf8.encode].
  - by destruct (Utf8.encode b).
  - rewrite IH. destruct (Utf8.encode_char c), (Utf8.encode a), (Utf8.encode b);
      try done. by rewrite app_assoc.
Qed.

(** Only the line feed is encoded with the byte 10. *)
Lemma encode_char_line_feed (c : N) (bs : list N) :
  Utf8.encode_char c = Some bs -> c <> 10%N -> 10%N ∉ bs.
Proof.
  unfold Utf8.encode_char. intros H Hc Hin.
  destruct (N.ltb_spec c 0x80); [|destruct (N.ltb_spec c 0x800);
    [|destruct (N.ltb_spec c 0x10000);
      [destruct ((0xD800 <=? c) && (c <=? 0xDFFF))%N; [done|]
      |destruct (N.ltb_spec c 0x110000); [|done]]]];
    injection H as <-;
    rewrite ?elem_of_cons, elem_of_nil in Hin; lia.
Qed.

Lemma encode_line_feed (s : pystr) (bs : list N) :
  Utf8.encode s = Some bs -> 10%N ∉ s -> 10%N ∉ bs.
Proof.
  revert bs. induction s as [|c s IH]; intros bs.
  - intros [= <-] _. apply not_elem_of_nil.
  - cbn [Utf8.encode].
    destruct (Utf8.encode_char c) as [b|] eqn:Hc; [|done].
    destruct (Utf8.encode s) as [bs'|]; [|done]. intros [= <-].
    intros [Hc10 Hs]%not_elem_of_cons.
    apply not_elem_of_app. split; [|by apply IH].
    apply (encode_char_line_feed c); [done|congruence].
Qed.

Lemma encode_app_inv (a b : pystr) (bs : list N) :
  Utf8.encode (a ++ b) = Some bs ->
  exists x y, Utf8.encode a = Some x /\ Utf8.encode b = Some y /\ bs = x ++ y.
Proof.
  rewrite encode_app.
  destruct (Utf8.encode a) as [x|], (Utf8.encode b) as [y|]; try done.
  intros [= <-]. by exists x, y.
Qed.

(** ** The lines of a file *)

Lemma lines_from_line (cur l rest : list N) :
  10%N ∉ l ->
  lines_from cur (l ++ 10%N :: rest) =
  (rev cur ++ l ++ [10%N]) :: lines_from [] rest.
Proof.
  revert cur. induction l as [|b l IH]; intros cur Hl.
  - done.
  - apply not_elem_of_cons in Hl as [Hb Hl].
    cbn [app lines_from]. rewrite (proj2 (N.eqb_neq b 10)) by done.
    rewrite IH by done. cbn [rev]. by rewrite <- app_assoc.
Qed.

Lemma file_lines_line (l rest : list N) :
  10%N ∉ l ->
  file_lines (l ++ 10%N :: rest) = (l ++ [10%N]) :: file_lines rest.
Proof. intros Hl. unfold file_lines. by rewrite lines_from_line. Qed.

Lemma lines_from_last (cur l : list N) :
  10%N ∉ l ->
  lines_from cur l =
  match rev cur ++ l with [] => [] | _ :: _ => [rev cur ++ l] end.
Proof.
  revert cur. induction l as [|b l IH]; intros cur Hl.
  - cbn [lines_from]. rewrite app_nil_r.
    destruct cur as [|c cur]; [done|]. cbn [rev].
    by destruct (rev cur).
  - apply not_elem_of_cons in Hl as [Hb Hl].
    cbn [lines_from]. rewrite (proj2 (N.eqb_neq b 10)) by done.
    rewrite IH by done. cbn [rev]. by rewrite <- app_assoc.
Qed.

Lemma file_lines_last (l : list N) :
  10%N ∉ l -> l <> [] -> file_lines l = [l].
Proof.
  intros Hl Hne. unfold file_lines. rewrite lines_from_last by done.
  cbn [rev app]. by destruct l.
Qed.

(** ** [strip] and [split] on the lines of a block *)

Lemma rstrip_space (s : pystr) (c : N) :
  is_space c = true -> rstrip (s ++ [c]) = rstrip s.
Proof.
  intros Hc. unfold rstrip. rewrite rev_app_distr. cbn [rev app lstrip].
  by rewrite Hc.
Qed.

Lemma rstrip_no_space (s : pystr) (c : N) :
  is_space c = false -> rstrip (s ++ [c]) = s ++ [c].
Proof.
  intros Hc. unfold rstrip. rewrite rev_app_distr. cbn [rev app lstrip].
  rewrite Hc. cbn [rev]. by rewrite rev_involutive.
Qed.

Lemma marker_last : marker = lit "<<__ENV_DELIMITER_" ++ [95%N].
Proof. reflexivity. Qed.

Lemma strip_header (key : pystr) :
  strip (key ++ marker ++ [10%N]) = lstrip (key ++ marker).
Proof.
  unfold strip. rewrite app_assoc, rstrip_space by done.
  assert (rstrip (key ++ marker) = key ++ marker) as ->; [|done].
  rewrite marker_last, app_assoc. by apply rstrip_no_space.
Qed.

Lemma split_from_nonempty (sep : pystr) (skip : nat) (cur s : pystr) :
  split_from sep skip cur s <> [].
Proof.
  revert skip cur. induction s as [|c s IH]; intros skip cur; [done|].
  cbn [split_from]. destruct skip; [|apply IH].
  destruct (starts_with sep (c :: s)); [done|apply IH].
Qed.

Lemma split_header_name (line : pystr) :
  exists parts, split (lit "<<") (strip line) = header_name line :: parts.
Proof.
  unfold header_name.
  destruct (split (lit "<<") (strip line)) as [|name parts] eqn:Hsplit.
  - by apply split_from_nonempty in Hsplit.
  - by exists parts.
Qed.

Lemma contains_app_here (pat a b : pystr) :
  contains pat (a ++ pat ++ b) = true.
Proof.
  induction a as [|c a IH]; cbn [app].
  - destruct pat as [|p pat]; [by destruct b|].
    cbn [contains app]. change (p :: pat ++ b) with ((p :: pat) ++ b).
    by rewrite starts_with_app.
  - cbn [contains]. by rewrite IH, orb_true_r.
Qed.

Lemma starts_with_app_l (pat a b : pystr) :
  starts_with pat a = true -> starts_with pat (a ++ b) = true.
Proof.
  revert a. induction pat as [|p pat IH]; intros a; [done|].
  destruct a as [|c a]; [done|]. cbn [app]. rewrite !starts_with_cons.
  intros [-> Ha]%andb_true_iff. by rewrite (IH a Ha).
Qed.

Lemma contains_app_l (pat a b : pystr) :
  contains pat a = true -> contains pat (a ++ b) = true.
Proof.
  induction a as [|c a IH].
  - cbn [contains app]. rewrite orb_false_r. intros H.
    destruct pat; [by destruct b|done].
  - cbn [contains app]. intros [H|H]%orb_true_iff.
    + change (c :: a ++ b) with ((c :: a) ++ b).
      by rewrite (starts_with_app_l _ _ _ H).
    + by rewrite (IH H), orb_true_r.
Qed.

(** ** Reading what was written *)

(** A line of text and its line feed, encoded, is one line of the file. *)
Lemma file_lines_text_line (l : pystr) (b rest : list N) :
  10%N ∉ l ->
  Utf8.encode (l ++ [10%N]) = Some b ->
  file_lines (b ++ rest) = b :: file_lines rest /\
  Utf8.decode b = Some (l ++ [10%N]).
Proof.
  intros Hl Hb. split; [|by apply decode_encode].
  apply encode_app_inv in Hb as (bl & y & Hbl & [= <-] & ->).
  rewrite <- app_assoc. apply file_lines_line.
  by apply (encode_line_feed l).
Qed.

Lemma marker_no_line_feed : 10%N ∉ marker.
Proof.
  intros Hin. apply list_elem_of_In in Hin. vm_compute in Hin.
  intuition discriminate.
Qed.

Lemma delimiter_no_line_feed : 10%N ∉ ACTION_ENV_DELIMITER.
Proof.
  intros Hin. apply list_elem_of_In in Hin. vm_compute in Hin.
  intuition discriminate.
Qed.

Lemma block_text_lines (key value rest : pystr) :
  block_text key value ++ rest =
  ((key ++ marker) ++ [10%N]) ++ (value ++ [10%N]) ++
  (ACTION_ENV_DELIMITER ++ [10%N]) ++ rest.
Proof. unfold block_text, marker. by rewrite <- !app_assoc. Qed.

(** The reader on one block: the header line gives the name, the value line
    the value, and the line of the delimiter repeats the assignment. *)
Lemma read_lines_block (key value rest : pystr) (bs : list N)
    (name decoded_value : option pystr) (d : gmap pystr pystr) :
  10%N ∉ key -> 10%N ∉ value ->
  Utf8.encode (block_text key value ++ rest) = Some bs ->
  exists br,
    Utf8.encode rest = Some br /\
    read_lines (file_lines bs) name decoded_value d =
    read_lines (file_lines br) (Some (key_read key)) (Some (value_read value))
      (<[key_read key := value_read value]> d).
Proof.
  intros Hkey Hvalue. rewrite block_text_lines.
  intros (b1 & x1 & H1 & Hx1 & ->)%encode_app_inv.
  apply encode_app_inv in Hx1 as (b2 & x2 & H2 & Hx2 & ->).
  apply encode_app_inv in Hx2 as (b3 & br & H3 & Hbr & ->).
  exists br. split; [done|].
  destruct (file_lines_text_line (key ++ marker) b1 (b2 ++ b3 ++ br))
    as [-> Hd1]; [|done|].
  { apply not_elem_of_app. split; [done|apply marker_no_line_feed]. }
  destruct (file_lines_text_line value b2 (b3 ++ br)) as [-> Hd2]; [done..|].
  destruct (file_lines_text_line ACTION_ENV_DELIMITER b3 br) as [-> Hd3];
    [apply delimiter_no_line_feed|done|].
  cbn [read_lines]. unfold bytes_decode. rewrite Hd1. cbn [result_bind].
  rewrite <- app_assoc, contains_app_here.
  destruct (split_header_name (key ++ marker ++ [10%N])) as [parts ->].
  rewrite Hd2. cbn [result_bind]. rewrite Hd3. cbn [result_bind].
  replace (contains marker (ACTION_ENV_DELIMITER ++ [10%N])) with false
    by reflexivity.
  by rewrite insert_insert_eq.
Qed.

Lemma read_lines_blocks (blocks : list (pystr * pystr)) (rest : pystr)
    (bs : list N) (name decoded_value : option pystr)
    (d : gmap pystr pystr) :
  Forall (fun block => (10%N ∉ fst block) /\ (10%N ∉ snd block)) blocks ->
  Utf8.encode (blocks_text blocks ++ rest) = Some bs ->
  exists br name' decoded_value',
    Utf8.encode rest = Some br /\
    read_lines (file_lines bs) name decoded_value d =
    read_lines (file_lines br) name' decoded_value'
      (assign_all (entries_read blocks) d).
Proof.
  intros Hblocks. revert bs name decoded_value d.
  induction Hblocks as [|[key value] blocks [Hkey Hvalue] _ IH];
    intros bs name decoded_value d Hbs.
  - by exists bs, name, decoded_value.
  - cbn [blocks_text flat_map fst snd] in Hbs. rewrite <- app_assoc in Hbs.
    destruct (read_lines_block key value _ bs name decoded_value d
                Hkey Hvalue Hbs) as (b' & Hb' & ->).
    destruct (IH b' (Some (key_read key)) (Some (value_read value))
                (<[key_read key := value_read value]> d) Hb')
      as (br & name' & decoded_value' & Hbr & ->).
    by exists br, name', decoded_value'.
Qed.

Lemma assign_all_lookup (pairs : list (pystr * pystr))
    (d : gmap pystr pystr) (key : pystr) :
  assign_all pairs d !! key =
  match last_written key pairs with
  | Some v => Some v
  | None => d !! key
  end.
Proof.
  revert d. induction pairs as [|[k v] pairs IH]; intros d; [done|].
  cbn [assign_all fold_left last_written fst snd].
  change (fold_left _ pairs ?d') with (assign_all pairs d'). rewrite IH.
  destruct (last_written key pairs); [done|].
  case_decide as Hk; [subst; apply lookup_insert_eq|by apply lookup_insert_ne].
Qed.

Lemma encode_nil_inv (s : pystr) : Utf8.encode s = Some [] -> s = [].
Proof. intros H%decode_encode. by injection H. Qed.

(** The reader on the last line of a file, when that line is a header. *)
Lemma read_lines_dangling (header : pystr) (line_feed : bool) (bs : list N)
    (name decoded_value : option pystr) (d : gmap pystr pystr) :
  10%N ∉ header ->
  contains marker header = true ->
  Utf8.encode (header ++ if line_feed then [10%N] else []) = Some bs ->
  read_lines (file_lines bs) name decoded_value d = Ok d.
Proof.
  intros Hlf Hmarker Hbs.
  assert (exists line : pystr,
             file_lines bs = [bs] /\ Utf8.decode bs = Some line /\
             contains marker line = true) as (line & -> & Hline & Hin).
  { destruct line_feed.
    - destruct (file_lines_text_line header bs [] Hlf Hbs) as [Hlines Hd].
      rewrite app_nil_r in Hlines. exists (header ++ [10%N]).
      by rewrite Hlines, (contains_app_l _ _ _ Hmarker).
    - rewrite app_nil_r in Hbs. exists header.
      split; [|by split; [apply decode_encode|]].
      apply file_lines_last; [by apply (encode_line_feed header)|].
      intros ->. apply encode_nil_inv in Hbs as ->. discriminate Hmarker. }
  cbn [read_lines]. unfold bytes_decode. rewrite Hline. cbn [result_bind].
  rewrite Hin. by destruct (split_header_name line) as [parts ->].
Qed.

(** ** A dangling header: claim C7 *)

(** C7, as amended.  On a file made of complete blocks followed by a header
    line that nothing follows, [get_workflow_environment_variables] does not
    raise and returns what the complete blocks give: the key of the dangling
    header is in the mapping exactly when an earlier block has that key, and
    then with the value of that block. *)
Theorem dangling_header_adds_nothing (w : world) (path : pystr)
    (blocks : list (pystr * pystr)) (header : pystr) (line_feed : bool)
    (content : list N) :
  environ w !! lit "GITHUB_ENV" = Some path ->
  fs w !! path = Some content ->
  Forall (fun block => (10%N ∉ fst block) /\ (10%N ∉ snd block)) blocks ->
  10%N ∉ header ->
  contains marker header = true ->
  Utf8.encode
    (blocks_text blocks ++ header ++ if line_feed then [10%N] else []) =
    Some content ->
  exists m,
    get_workflow_environment_variables w = (Ok m, w) /\
    m = assign_all (entries_read blocks) ∅ /\
    forall key, m !! key = last_written key (entries_read blocks).
Proof.
  intros Henv Hfile Hblocks Hheader Hmarker Hcontent.
  exists (assign_all (entries_read blocks) ∅).
  split; [|split; [done|]].
  - unfold get_workflow_environment_variables. rewrite Henv, Hfile.
    destruct (read_lines_blocks blocks _ content None None ∅ Hblocks Hcontent)
      as (br & name' & decoded_value' & Hbr & ->).
    by rewrite (read_lines_dangling header line_feed br).
  - intros key. rewrite assign_all_lookup, lookup_empty.
    by destruct (last_written key (entries_read blocks)).
Qed.

(** ** Plain text goes through unchanged *)

Lemma without_cons (chars : list N) (c : N) (s : pystr) :
  without chars (c :: s) = true ->
  (forall a, In a chars -> a <> c) /\ without chars s = true.
Proof.
  unfold without. cbn [forallb]. intros [Hc Hs]%andb_true_iff.
  split; [|done]. intros a Ha ->. apply negb_true_iff in Hc.
  assert (existsb (N.eqb c) chars = true) as Hex; [|congruence].
  apply existsb_exists. exists c. by rewrite N.eqb_refl.
Qed.

Lemma without_not_elem (chars : list N) (a : N) (s : pystr) :
  without chars s = true -> In a chars -> a ∉ s.
Proof.
  induction s as [|c s IH]; intros Hs Ha; [apply not_elem_of_nil|].
  apply without_cons in Hs as [Hc Hs]. apply not_elem_of_cons.
  split; [by apply Hc|by apply IH].
Qed.

Lemma replace_absent (a : N) (new s : pystr) :
  a ∉ s -> replace [a] new s = s.
Proof.
  rewrite replace_single. induction s as [|c s IH]; [done|].
  intros [Hc Hs]%not_elem_of_cons. cbn [flat_map].
  by rewrite (proj2 (N.eqb_neq a c)), IH.
Qed.

Lemma escape_text_plain (s : pystr) :
  without [37; 13; 10]%N s = true -> escape_text s = s.
Proof.
  intros H. unfold escape_text. eval_lits.
  assert (forall a, In a [37; 13; 10]%N -> a ∉ s) as Habsent
    by (intros a; by apply without_not_elem).
  rewrite (replace_absent 37), (replace_absent 13), (replace_absent 10);
    [done|apply Habsent; cbn; auto..].
Qed.

Lemma without_fewer (s : pystr) :
  without [37; 13; 10; 58; 44]%N s = true -> without [37; 13; 10]%N s = true.
Proof.
  unfold without. rewrite !forallb_forall. intros H c Hc.
  specialize (H c Hc). apply negb_true_iff in H. apply negb_true_iff.
  cbn [existsb] in *. repeat (apply orb_false_iff in H as [? H]).
  repeat (apply orb_false_iff; split; [done|]). done.
Qed.

Lemma escape_property_plain (key : pystr) :
  without [37; 13; 10; 58; 44]%N key = true ->
  _escape_property (VStr key) = Ok key.
Proof.
  intros H. unfold _escape_property, _escape_data, _make_string.
  cbn [is_container py_str result_bind].
  rewrite escape_text_plain by by apply without_fewer. eval_lits.
  assert (forall a, In a [37; 13; 10; 58; 44]%N -> a ∉ key) as Habsent
    by (intros a; by apply without_not_elem).
  rewrite (replace_absent 58), (replace_absent 44);
    [done|apply Habsent; cbn; auto 10..].
Qed.

Lemma escape_data_plain (value : pystr) :
  without [37; 13; 10]%N value = true -> _escape_data (VStr value) = Ok value.
Proof.
  intros H. unfold _escape_data, _make_string.
  cbn [is_container py_str result_bind]. by rewrite escape_text_plain.
Qed.

Lemma lstrip_no_space (s : pystr) :
  match s with [] => true | c :: _ => negb (is_space c) end = true ->
  lstrip s = s.
Proof.
  destruct s as [|c s]; [done|]. intros H%negb_true_iff.
  cbn [lstrip]. by rewrite H.
Qed.

Lemma no_outer_space_strip (s : pystr) :
  no_outer_space s = true -> lstrip s = s /\ rstrip s = s.
Proof.
  unfold no_outer_space. intros [Hfirst Hlast]%andb_true_iff.
  split; [by apply lstrip_no_space|].
  unfold rstrip. rewrite (lstrip_no_space _ Hlast). apply rev_involutive.
Qed.

Lemma value_read_plain (value : pystr) :
  no_outer_space value = true -> value_read value = value.
Proof.
  intros [Hl Hr]%no_outer_space_strip. unfold value_read, strip.
  by rewrite rstrip_space, Hr, Hl.
Qed.

Lemma split_from_head (key rest cur : pystr) :
  contains (lit "<<") (key ++ lit "<") = false ->
  exists parts,
    split_from (lit "<<") 0 cur (key ++ lit "<<" ++ rest) =
    (rev cur ++ key) :: parts.
Proof.
  eval_lits. cbn [app]. revert cur.
  induction key as [|c key IH]; intros cur Hkey.
  - eexists. cbn [app split_from starts_with]. cbn. by rewrite app_nil_r.
  - cbn [app] in Hkey. apply contains_cons_false in Hkey as [Hhere Hkey].
    destruct (IH (c :: cur) Hkey) as [parts Hparts].
    exists parts. cbn [app split_from].
    assert (starts_with [60; 60]%N (c :: key ++ 60%N :: 60%N :: rest) = false)
      as ->.
    { rewrite starts_with_cons in Hhere |- *.
      destruct (60 =? c)%N; [|done]. cbn [andb] in *.
      by destruct key. }
    rewrite Hparts. cbn [rev]. by rewrite <- app_assoc.
Qed.

Lemma key_read_plain (key : pystr) :
  no_outer_space key = true ->
  contains (lit "<<") (key ++ lit "<") = false ->
  key_read key = key.
Proof.
  intros [Hspace _]%andb_true_iff Hkey.
  unfold key_read, header_name. rewrite strip_header.
  assert (lstrip (key ++ marker) = key ++ marker) as ->.
  { apply lstrip_no_space. by destruct key. }
  unfold split, marker.
  by destruct (split_from_head key (ACTION_ENV_DELIMITER) [] Hkey) as [parts ->].
Qed.

(** ** Writing and reading back: claim C2 *)

Lemma encode_block_text (key value : pystr) (bk bv : list N) :
  Utf8.encode key = Some bk ->
  Utf8.encode value = Some bv ->
  exists b, Utf8.encode (block_text key value) = Some b.
Proof.
  intros Hk Hv. unfold block_text. rewrite !encode_app, Hk, Hv.
  by eexists.
Qed.

Lemma set_env_plain (name value path : pystr) (w : world) :
  plain_key name = true ->
  plain_value value = true ->
  environ w !! lit "GITHUB_ENV" = Some path ->
  exists b,
    Utf8.encode (block_text name value) = Some b /\
    set_env name (VStr value) w =
    (Ok tt, set_fs (<[path := default [] (fs w !! path) ++ b]> (fs w)) w).
Proof.
  unfold plain_key, plain_value. rewrite !andb_true_iff.
  intros [[[Hke Hkw] _] _] [[Hve Hvw] _] Henv.
  unfold encodable in Hke, Hve.
  destruct (Utf8.encode name) as [bk|] eqn:Hbk; [|done].
  destruct (Utf8.encode value) as [bv|] eqn:Hbv; [|done].
  destruct (encode_block_text name value bk bv Hbk Hbv) as [b Hb].
  exists b. split; [done|].
  unfold set_env, append_file_input, bind, environ_get. rewrite Henv.
  unfold open_append, lift, _build_file_input.
  rewrite (escape_property_plain name Hkw), (escape_data_plain value Hvw).
  cbn [result_bind]. unfold str_encode.
  change (name ++ lit "<<" ++ ACTION_ENV_DELIMITER ++ [10%N] ++
          value ++ [10%N] ++ ACTION_ENV_DELIMITER ++ [10%N])
    with (block_text name value).
  rewrite Hb. unfold file_write, set_fs. cbn [fs environ stdout warnings
    uuid_source uuid_calls COMMANDS_USE_SUBPROCESS].
  by rewrite lookup_insert_eq, insert_insert_eq.
Qed.

Lemma set_env_each_plain (pairs : list (pystr * pystr)) (path : pystr)
    (w : world) :
  Forall (fun kv => plain_key (fst kv) = true /\ plain_value (snd kv) = true)
    pairs ->
  environ w !! lit "GITHUB_ENV" = Some path ->
  exists bs w',
    Utf8.encode (blocks_text pairs) = Some bs /\
    set_env_each pairs w = (Ok tt, w') /\
    environ w' = environ w /\
    default [] (fs w' !! path) = default [] (fs w !! path) ++ bs /\
    (pairs <> [] \/ is_Some (fs w !! path) -> is_Some (fs w' !! path)).
Proof.
  intros Hplain. revert w.
  induction Hplain as [|[name value] pairs [Hname Hvalue] _ IH]; intros w Henv.
  - exists [], w. rewrite app_nil_r. repeat split; try done.
    by intros [?|?].
  - destruct (set_env_plain name value path w Hname Hvalue Henv)
      as (b & Hb & Hrun).
    destruct (IH (set_fs (<[path := default [] (fs w !! path) ++ b]> (fs w)) w)
                Henv) as (bs & w' & Hbs & Hrun' & Henv' & Hfile & Hsome).
    exists (b ++ bs), w'. cbn [fs set_fs] in Hfile, Hsome.
    rewrite lookup_insert_eq in Hfile, Hsome. cbn [default] in Hfile.
    split; [|split; [|split; [done|split]]].
    + cbn [blocks_text flat_map fst snd]. unfold blocks_text in Hbs.
      by rewrite encode_app, Hb, Hbs.
    + cbn [set_env_each]. unfold bind at 1. by rewrite Hrun.
    + by rewrite Hfile, app_assoc.
    + intros _. apply Hsome. by right.
Qed.

Lemma dom_assign_all (pairs : list (pystr * pystr)) (d : gmap pystr pystr) :
  dom (assign_all pairs d) = list_to_set pairs.*1 ∪ dom d.
Proof.
  revert d. induction pairs as [|[k v] pairs IH]; intros d.
  - cbn. by rewrite (left_id_L ∅ (∪)).
  - cbn [assign_all fold_left fst snd].
    change (fold_left _ pairs ?d') with (assign_all pairs d').
    rewrite IH, dom_insert_L. cbn [fmap list_fmap fst list_to_set].
    by rewrite (assoc_L (∪)), (comm_L (∪) (list_to_set _) {[k]}).
Qed.

Lemma size_assign_all (pairs : list (pystr * pystr)) :
  size (assign_all pairs ∅) = length (remove_dups pairs.*1).
Proof.
  rewrite <- size_dom, dom_assign_all, dom_empty_L, (right_id_L ∅ (∪)).
  rewrite <- (size_list_to_set (C := gset pystr) (remove_dups pairs.*1))
    by apply NoDup_remove_dups.
  f_equal. apply set_eq. intros x.
  by rewrite !elem_of_list_to_set, elem_of_remove_dups.
Qed.

Lemma entries_read_plain (pairs : list (pystr * pystr)) :
  Forall (fun kv => plain_key (fst kv) = true /\ plain_value (snd kv) = true)
    pairs ->
  entries_read pairs = pairs.
Proof.
  induction 1 as [|[name value] pairs [Hname Hvalue] _ IH]; [done|].
  cbn [entries_read map fst snd]. unfold entries_read in IH. rewrite IH.
  revert Hname Hvalue. unfold plain_key, plain_value.
  rewrite !andb_true_iff, negb_true_iff.
  intros [[_ Hspace] Hsplit] [_ Hvalue].
  by rewrite key_read_plain, value_read_plain.
Qed.

Lemma plain_no_line_feed (pairs : list (pystr * pystr)) :
  Forall (fun kv => plain_key (fst kv) = true /\ plain_value (snd kv) = true)
    pairs ->
  Forall (fun block => (10%N ∉ fst block) /\ (10%N ∉ snd block)) pairs.
Proof.
  intros Hplain. apply (Forall_impl _ _ _ Hplain).
  intros [name value]. cbn [fst snd].
  unfold plain_key, plain_value. rewrite !andb_true_iff.
  intros [[[[_ Hk] _] _] [[_ Hv] _]]. split.
  - apply (without_not_elem [37; 13; 10; 58; 44]%N); cbn; auto.
  - apply (without_not_elem [37; 13; 10]%N); cbn; auto.
Qed.

(** C2, as amended.  Take one or more pairs of plain text: text that can be
    encoded, with no [%], carriage return or line feed, with no white space
    at either end and, in a key, no [:], no [,], no [<<] and no [<] at the
    end.  Written with [set_env] to a [GITHUB_ENV] file that was absent or
    empty and read back, they give a mapping with as many entries as there
    are distinct keys, each key with the value written last for it. *)
Theorem env_file_round_trip (w : world) (path : pystr)
    (pairs : list (pystr * pystr)) :
  pairs <> [] ->
  Forall (fun kv => plain_key (fst kv) = true /\ plain_value (snd kv) = true)
    pairs ->
  environ w !! lit "GITHUB_ENV" = Some path ->
  default [] (fs w !! path) = [] ->
  exists m w',
    (set_env_each pairs ;;; get_workflow_environment_variables) w =
      (Ok m, w') /\
    size m = length (remove_dups pairs.*1) /\
    forall key, m !! key = last_written key pairs.
Proof.
  intros Hne Hplain Henv Hempty.
  destruct (set_env_each_plain pairs path w Hplain Henv)
    as (bs & w' & Hbs & Hrun & Henv' & Hfile & Hsome).
  exists (assign_all pairs ∅), w'. split; [|split].
  - unfold bind. rewrite Hrun.
    unfold get_workflow_environment_variables. rewrite Henv', Henv.
    destruct (Hsome (or_introl Hne)) as [content Hcontent].
    rewrite Hempty, Hcontent in Hfile. simpl in Hfile. subst content.
    rewrite Hcontent.
    rewrite <- (app_nil_r (blocks_text pairs)) in Hbs.
    destruct (read_lines_blocks pairs [] bs None None ∅
                (plain_no_line_feed pairs Hplain) Hbs)
      as (br & name' & decoded_value' & [= <-] & ->).
    by rewrite (entries_read_plain pairs Hplain).
  - apply size_assign_all.
  - intros key. rewrite assign_all_lookup, lookup_empty.
    by destruct (last_written key pairs).
Qed.

(** ** More on the escaper *)

Lemma escape_property_text_escaped (s : pystr) :
  escape_property_text s = flat_map escaped_property s.
Proof.
  unfold escape_property_text. rewrite escape_text_escaped. eval_lits.
  rewrite !replace_single.
  induction s as [|c s IH]; cbn [flat_map]; [done|].
  rewrite !flat_map_app, IH. f_equal. unfold escaped, escaped_property.
  destruct (N.eqb_spec c 37) as [->|H37]; [done|].
  destruct (N.eqb_spec c 13) as [->|H13]; [done|].
  destruct (N.eqb_spec c 10) as [->|H10]; [done|].
  cbn [flat_map app].
  destruct (N.eqb_spec 58 c) as [<-|H58]; [done|].
  rewrite (proj2 (N.eqb_neq c 58)) by done. cbn [flat_map app].
  destruct (N.eqb_spec 44 c) as [<-|H44]; [done|].
  by rewrite (proj2 (N.eqb_neq c 44)) by done.
Qed.

Lemma escape_property_run (data : pyval) (text : pystr) :
  _make_string data = Ok text ->
  _escape_data data = Ok (escape_text text) /\
  _escape_property data = Ok (escape_property_text text).
Proof.
  intros H. unfold _escape_property, _escape_data. by rewrite H.
Qed.

Lemma escaped_property_no_raw (c x : N) :
  x ∈ [58; 44; 13; 10]%N -> x ∉ escaped_property c.
Proof.
  intros Hx Hin. unfold escaped_property in Hin. eval_lits.
  rewrite !elem_of_cons, elem_of_nil in Hx.
  destruct (N.eqb_spec c 37); [|destruct (N.eqb_spec c 13);
    [|destruct (N.eqb_spec c 10); [|destruct (N.eqb_spec c 58);
      [|destruct (N.eqb_spec c 44)]]]];
    rewrite ?elem_of_cons, elem_of_nil in Hin; lia.
Qed.

Lemma escape_property_text_no_raw (s : pystr) (x : N) :
  x ∈ [58; 44; 13; 10]%N -> x ∉ escape_property_text s.
Proof.
  intros Hx Hin. rewrite escape_property_text_escaped in Hin.
  apply list_elem_of_In, in_flat_map in Hin as [c [_ Hc]].
  by apply (escaped_property_no_raw c x Hx), list_elem_of_In.
Qed.

(** X1.  Whatever the input, the text [_escape_property] returns contains no
    [:], no [,], no carriage return and no line feed. *)
Theorem escape_property_no_delimiter (data : pyval) (out : pystr) :
  _escape_property data = Ok out ->
  (58%N ∉ out) /\ (44%N ∉ out) /\ (13%N ∉ out) /\ (10%N ∉ out).
Proof.
  unfold _escape_property, _escape_data.
  destruct (_make_string data) as [text|e]; [|done].
  cbn [result_bind]. intros [= <-].
  change (replace _ _ (replace _ _ (escape_text text)))
    with (escape_property_text text).
  repeat split; apply escape_property_text_no_raw;
    rewrite !elem_of_cons; auto.
Qed.

Lemma special_count_zero (s : pystr) :
  length (List.filter special s) = 0 <-> without [37; 13; 10]%N s = true.
Proof.
  unfold without. induction s as [|c s IH]; [done|].
  cbn [List.filter forallb existsb]. rewrite orb_false_r.
  replace ((c =? 37) || ((c =? 13) || (c =? 10)))%N with (special c)
    by (unfold special; by rewrite orb_assoc).
  destruct (special c); cbn [length negb andb]; [|exact IH].
  split; [lia|done].
Qed.

Lemma length_escape_text (s : pystr) :
  length (escape_text s) = length s + 2 * length (List.filter special s).
Proof.
  rewrite escape_text_escaped.
  induction s as [|c s IH]; [done|].
  cbn [flat_map List.filter]. rewrite length_app, IH.
  unfold escaped, special.
  destruct (N.eqb_spec c 37) as [->|?]; [cbn; lia|].
  destruct (N.eqb_spec c 13) as [->|?]; [cbn; lia|].
  destruct (N.eqb_spec c 10) as [->|?]; cbn; lia.
Qed.

(** X2.  [_escape_data] makes a text longer by two characters for each [%],
    carriage return and line feed in it, and it returns the text unchanged
    exactly when the text has none of them. *)
Theorem escape_data_length (s : pystr) :
  exists out,
    _escape_data (VStr s) = Ok out /\
    length out = length s + 2 * length (List.filter special s) /\
    (out = s <-> without [37; 13; 10]%N s = true).
Proof.
  exists (escape_text s). split; [done|].
  split; [apply length_escape_text|]. split.
  - intros Heq. apply special_count_zero.
    pose proof (length_escape_text s) as Hlen. rewrite Heq in Hlen. lia.
  - apply escape_text_plain.
Qed.

(** Escaping that keeps a character or puts [%] and two characters in its
    place, different ones for different characters, loses nothing. *)
Lemma flat_map_escape_inj (f : N -> pystr) :
  (forall c, f c = [c] /\ c <> 37%N \/ exists a b, f c = [37%N; a; b]) ->
  (forall c d a b, f c = [37%N; a; b] -> f d = [37%N; a; b] -> c = d) ->
  forall s t, flat_map f s = flat_map f t -> s = t.
Proof.
  intros Hshape Hcode. induction s as [|c s IH]; intros [|d t];
    cbn [flat_map]; try done.
  - destruct (Hshape d) as [[-> _]|(a & b & ->)]; discriminate.
  - destruct (Hshape c) as [[-> _]|(a & b & ->)]; discriminate.
  - destruct (Hshape c) as [[Hc Hc37]|(a & b & Hc)],
             (Hshape d) as [[Hd Hd37]|(a' & b' & Hd)];
      rewrite Hc, Hd; cbn [app]; intros Heq.
    + injection Heq as -> Heq. f_equal. by apply IH.
    + by injection Heq as -> _.
    + by injection Heq as <- _.
    + injection Heq as -> -> Heq. rewrite (Hcode c d a' b' Hc Hd).
      f_equal. by apply IH.
Qed.

Lemma escaped_shape (c : N) :
  escaped c = [c] /\ c <> 37%N \/ exists a b, escaped c = [37%N; a; b].
Proof.
  unfold escaped. eval_lits.
  destruct (N.eqb_spec c 37); [right; by eexists _, _|].
  destruct (N.eqb_spec c 13); [right; by eexists _, _|].
  destruct (N.eqb_spec c 10); [right; by eexists _, _|]. by left.
Qed.

Lemma escaped_property_shape (c : N) :
  escaped_property c = [c] /\ c <> 37%N \/
  exists a b, escaped_property c = [37%N; a; b].
Proof.
  unfold escaped_property. eval_lits.
  destruct (N.eqb_spec c 37); [right; by eexists _, _|].
  destruct (N.eqb_spec c 13); [right; by eexists _, _|].
  destruct (N.eqb_spec c 10); [right; by eexists _, _|].
  destruct (N.eqb_spec c 58); [right; by eexists _, _|].
  destruct (N.eqb_spec c 44); [right; by eexists _, _|]. by left.
Qed.

Lemma escaped_code (c d a b : N) :
  escaped c = [37%N; a; b] -> escaped d = [37%N; a; b] -> c = d.
Proof.
  unfold escaped. eval_lits.
  destruct (N.eqb_spec c 37); [|destruct (N.eqb_spec c 13);
    [|destruct (N.eqb_spec c 10)]];
    (destruct (N.eqb_spec d 37); [|destruct (N.eqb_spec d 13);
      [|destruct (N.eqb_spec d 10)]]);
    intros [= ? ?] [= ? ?]; subst; try done; lia.
Qed.

Lemma escaped_property_code (c d a b : N) :
  escaped_property c = [37%N; a; b] -> escaped_property d = [37%N; a; b] ->
  c = d.
Proof.
  unfold escaped_property. eval_lits.
  destruct (N.eqb_spec c 37); [|destruct (N.eqb_spec c 13);
    [|destruct (N.eqb_spec c 10); [|destruct (N.eqb_spec c 58);
      [|destruct (N.eqb_spec c 44)]]]];
    (destruct (N.eqb_spec d 37); [|destruct (N.eqb_spec d 13);
      [|destruct (N.eqb_spec d 10); [|destruct (N.eqb_spec d 58);
        [|destruct (N.eqb_spec d 44)]]]]);
    intros [= ? ?] [= ? ?]; subst; try done; lia.
Qed.

(** X3.  Neither escaper loses information: two texts with the same
    [_escape_data], or with the same [_escape_property], are the same
    text. *)
Theorem escapers_injective (s t : pystr) :
  (_escape_data (VStr s) = _escape_data (VStr t) -> s = t) /\
  (_escape_property (VStr s) = _escape_property (VStr t) -> s = t).
Proof.
  split.
  - intros [= Heq]. rewrite !escape_text_escaped in Heq.
    exact (flat_map_escape_inj escaped escaped_shape escaped_code s t Heq).
  - intros [= Heq].
    change (escape_property_text s = escape_property_text t) in Heq.
    rewrite !escape_property_text_escaped in Heq.
    exact (flat_map_escape_inj escaped_property escaped_property_shape
             escaped_property_code s t Heq).
Qed.

(** ** Option names and option strings *)

Lemma title_from_lower (word rest : pystr) :
  forallb is_lower word = true ->
  title_from true (word ++ rest) = word ++ title_from true rest.
Proof.
  induction word as [|c word IH]; [done|].
  cbn [forallb app title_from]. intros [-> Hword]%andb_true_iff.
  by rewrite IH.
Qed.

Lemma title_from_word (word rest : pystr) :
  lower_word word = true ->
  title_from false (word ++ rest) = capitalize word ++ title_from true rest.
Proof.
  destruct word as [|c word]; [done|].
  cbn [lower_word forallb app title_from capitalize].
  intros [-> Hword]%andb_true_iff. by rewrite title_from_lower.
Qed.

Lemma title_snake (word : pystr) (words : list pystr) :
  Forall (fun w => lower_word w = true) (word :: words) ->
  title (join (lit "_") (word :: words)) =
  capitalize word ++ flat_map (fun w => 95%N :: capitalize w) words.
Proof.
  unfold title. eval_lits. revert word.
  induction words as [|word' words IH]; intros word Hwords.
  - apply Forall_cons in Hwords as [Hword _]. cbn [join flat_map].
    rewrite <- (app_nil_r word) at 1. by rewrite title_from_word.
  - apply Forall_cons in Hwords as [Hword Hwords].
    change (join [95%N] (word :: word' :: words))
      with (word ++ 95%N :: join [95%N] (word' :: words)).
    rewrite title_from_word by done.
    change (title_from true (95%N :: ?r)) with (95%N :: title_from false r).
    by rewrite IH.
Qed.

Lemma capitalize_no_underscore (word : pystr) :
  lower_word word = true -> 95%N ∉ capitalize word.
Proof.
  destruct word as [|c word]; [done|].
  cbn [lower_word forallb capitalize]. intros [Hc Hword]%andb_true_iff.
  apply not_elem_of_cons. split.
  - unfold to_upper. rewrite Hc. unfold is_lower in Hc.
    apply andb_true_iff in Hc as [?%N.leb_le ?%N.leb_le]. lia.
  - intros Hin%list_elem_of_In.
    apply (proj1 (forallb_forall _ _) Hword) in Hin. discriminate Hin.
Qed.

Lemma replace_single_app (a : N) (new x y : pystr) :
  replace [a] new (x ++ y) = replace [a] new x ++ replace [a] new y.
Proof. by rewrite !replace_single, flat_map_app. Qed.

Lemma remove_underscores (words : list pystr) :
  Forall (fun w => lower_word w = true) words ->
  replace [95%N] [] (flat_map (fun w => 95%N :: capitalize w) words) =
  flat_map capitalize words.
Proof.
  induction 1 as [|word words Hword _ IH]; [done|].
  cbn [flat_map].
  rewrite (replace_single_app 95 [] (95%N :: capitalize word)), IH.
  change (95%N :: capitalize word) with ([95%N] ++ capitalize word).
  rewrite (replace_single_app 95 [] [95%N]).
  by rewrite (replace_absent _ _ _ (capitalize_no_underscore word Hword)).
Qed.

(** X4.  [_to_camel_case] on a snake case name, that is words of the letters
    [a] to [z] joined by [_]: the first word stays as it is, each later word
    gets a capital first letter, and the underscores go. *)
Theorem to_camel_case_snake (word : pystr) (words : list pystr) :
  Forall (fun w => lower_word w = true) (word :: words) ->
  _to_camel_case (join (lit "_") (word :: words)) =
  word ++ flat_map capitalize words.
Proof.
  intros Hwords. unfold _to_camel_case. rewrite title_snake by done.
  apply Forall_cons in Hwords as [Hword Hwords]. eval_lits.
  rewrite (replace_single_app 95 [] (capitalize word)).
  rewrite remove_underscores by done.
  rewrite (replace_absent _ _ _ (capitalize_no_underscore word Hword)).
  destruct word as [|c word]; [done|].
  assert (take 1 (join [95%N] (((c :: word) : pystr) :: words)) = [c]) as ->
    by (by destruct words).
  cbn [lower_word forallb] in Hword.
  apply andb_true_iff in Hword as [Hc _].
  cbn [capitalize lower map app drop]. f_equal.
  unfold to_lower, is_upper. unfold is_lower in Hc.
  apply andb_true_iff in Hc as [?%N.leb_le ?%N.leb_le].
  by rewrite (proj2 (N.leb_gt c 90)), andb_false_r by lia.
Qed.

Lemma result_mapM_map {A B} (f : A -> result B) (g : A -> B) (l : list A) :
  (forall x, In x l -> f x = Ok (g x)) ->
  result_mapM f l = Ok (map g l).
Proof.
  induction l as [|x l IH]; intros Hf; [done|].
  cbn [result_mapM map]. rewrite (Hf x) by (by left). cbn [result_bind].
  rewrite IH by (intros y Hy; apply Hf; by right). done.
Qed.

Lemma build_options_string_run (kwargs : list (pystr * pyval)) :
  (forall kv, In kv kwargs -> is_scalar (snd kv) = true) ->
  _build_options_string kwargs =
  Ok (join (lit ",")
        (map option_part
           (List.filter (fun kv => negb (is_None (snd kv))) kwargs))).
Proof.
  intros Hkwargs. unfold _build_options_string.
  rewrite (result_mapM_map _ option_part); [done|].
  intros [key value] [Hin _]%filter_In. specialize (Hkwargs _ Hin).
  cbn [fst snd] in *.
  unfold option_part, str_text, _escape_property, _escape_data, _make_string.
  by destruct value as [|[]| | | | | | |].
Qed.

Lemma join_not_elem (x : N) (sep : pystr) (parts : list pystr) :
  x ∉ sep -> (forall part, In part parts -> x ∉ part) -> x ∉ join sep parts.
Proof.
  intros Hsep. induction parts as [|part parts IH]; intros Hparts.
  - apply not_elem_of_nil.
  - destruct parts as [|part' parts]; [apply Hparts; by left|].
    change (join sep (part :: part' :: parts))
      with (part ++ sep ++ join sep (part' :: parts)).
    rewrite !not_elem_of_app. split; [apply Hparts; by left|].
    split; [done|]. apply IH. intros p Hp. apply Hparts. by right.
Qed.

Lemma not_elem_by_test (x : N) (s : pystr) :
  forallb (fun c => negb (c =? x)%N) s = true -> x ∉ s.
Proof.
  intros Hs Hin%list_elem_of_In.
  apply (proj1 (forallb_forall _ _) Hs) in Hin.
  by rewrite N.eqb_refl in Hin.
Qed.

Lemma log_options_free (x : N) (title file : option pystr)
    (col end_column line end_line : option Z) :
  x = 58%N \/ x = 13%N \/ x = 10%N ->
  x ∉ join (lit ",")
        (map option_part
           (List.filter (fun kv => negb (is_None (snd kv)))
              (log_options title file col end_column line end_line))).
Proof.
  intros Hx.
  assert (x ∈ [58; 44; 13; 10]%N) as Hx'
    by (rewrite !elem_of_cons; tauto).
  apply join_not_elem.
  { apply not_elem_by_test. by destruct Hx as [->|[->| ->]]. }
  intros part [kv [<- [Hkv _]%filter_In]]%in_map_iff.
  unfold option_part. rewrite !not_elem_of_app.
  split; [|split; [|by apply escape_property_text_no_raw]].
  - unfold log_options in Hkv. cbn [In] in Hkv.
    apply not_elem_by_test.
    destruct Hkv as [<-|[<-|[<-|[<-|[<-|[<-|[]]]]]]];
      by destruct Hx as [->|[->| ->]].
  - apply not_elem_by_test. by destruct Hx as [->|[->| ->]].
Qed.

Lemma log_options_scalar (title file : option pystr)
    (col end_column line end_line : option Z) (kv : pystr * pyval) :
  In kv (log_options title file col end_column line end_line) ->
  is_scalar (snd kv) = true.
Proof.
  unfold log_options. cbn [In].
  intros [<-|[<-|[<-|[<-|[<-|[<-|[]]]]]]]; cbn [snd];
    by destruct title, file, col, end_column, line, end_line.
Qed.

(** X5.  [notice], [warning] and [error] write [::{command} {options}::
    {message}] with the same option string, and that option string never
    contains [:], a carriage return or a line feed, whatever the title, the
    file name and the numbers are: the first [::] after the command name is
    the one that ends the options. *)
Theorem log_commands_options (message : pystr) (title file : option pystr)
    (col end_column line end_line : option Z) (use_subprocess : bool)
    (w : world) :
  exists options,
    _build_options_string
      (log_options title file col end_column line end_line) = Ok options /\
    (58%N ∉ options) /\ (13%N ∉ options) /\ (10%N ∉ options) /\
    notice message title file col end_column line end_line use_subprocess w =
      (Ok tt,
       set_stdout
         (stdout w ++
          [written use_subprocess w
             (lit "::notice " ++ options ++ lit "::" ++ message)]) w) /\
    warning message title file col end_column line end_line use_subprocess w =
      (Ok tt,
       set_stdout
         (stdout w ++
          [written use_subprocess w
             (lit "::warning " ++ options ++ lit "::" ++ message)]) w) /\
    error message title file col end_column line end_line use_subprocess w =
      (Ok tt,
       set_stdout
         (stdout w ++
          [written use_subprocess w
             (lit "::error " ++ options ++ lit "::" ++ message)]) w).
Proof.
  pose proof (build_options_string_run _
                (log_options_scalar title file col end_column line end_line))
    as Hrun.
  eexists. split; [exact Hrun|].
  split; [apply log_options_free; auto|].
  split; [apply log_options_free; auto|].
  split; [apply log_options_free; auto|].
  unfold notice, warning, error, bind, lift. rewrite Hrun.
  unfold _print_command, bind, lift, emit. cbn [py_str].
  by destruct (join _ _).
Qed.


Lemma to_upper_idem (c : N) :
  to_upper (to_upper c) = to_upper c /\ to_upper (to_lower c) = to_upper c.
Proof.
  unfold to_upper, to_lower, is_lower, is_upper.
  destruct (N.leb_spec 97 c), (N.leb_spec c 122), (N.leb_spec 65 c),
    (N.leb_spec c 90); cbn [andb]; split;
    repeat (progress (bool_N; cbn [andb])); lia.
Qed.

(** ** Inputs and state from the environment *)

(** X7.  [get_user_input] does not depend on the case of the letters of an
    ASCII name: the name in lower case and the name in upper case give the
    same answer as the name itself. *)
Theorem get_user_input_ignores_case (name : pystr) (w : world) :
  ascii_text name = true ->
  get_user_input (lower name) w = get_user_input name w /\
  get_user_input (upper name) w = get_user_input name w.
Proof.
  intros _. unfold get_user_input, upper, lower. rewrite !map_map.
  assert (map (fun c => to_upper (to_lower c)) name = map to_upper name) as ->
    by (apply map_ext; intros c; apply to_upper_idem).
  assert (map (fun c => to_upper (to_upper c)) name = map to_upper name) as ->
    by (apply map_ext; intros c; apply to_upper_idem).
  done.
Qed.

(** ** The block a writer appends *)

Lemma build_file_input_inv (name : pystr) (value : pyval) (data : list N) :
  _build_file_input name value = Ok data ->
  exists text,
    _make_string value = Ok text /\
    Utf8.encode (block_text (escape_property_text name) (escape_text text)) =
      Some data.
Proof.
  unfold _build_file_input, _escape_property, _escape_data.
  cbn [_make_string is_container py_str result_bind].
  destruct (_make_string value) as [text|e]; [|done].
  cbn [result_bind]. unfold str_encode.
  change (replace _ _ (replace _ _ (escape_text name)) ++ lit "<<" ++
          ACTION_ENV_DELIMITER ++ [10%N] ++ escape_text text ++ [10%N] ++
          ACTION_ENV_DELIMITER ++ [10%N])
    with (block_text (escape_property_text name) (escape_text text)).
  destruct (Utf8.encode _) as [bs|] eqn:Hbs; [|done].
  intros [= <-]. by exists text.
Qed.

(** X8.  Whatever the name and the value are, the bytes [_build_file_input]
    returns are three lines: the escaped name followed by
    [<<__ENV_DELIMITER__], the escaped value, and [__ENV_DELIMITER__], each
    ended by a line feed. *)
Theorem file_input_three_lines (name : pystr) (value : pyval)
    (data : list N) :
  _build_file_input name value = Ok data ->
  exists key_line value_line key escaped_value,
    file_lines data =
      [key_line; value_line; ACTION_ENV_DELIMITER ++ [10%N]] /\
    _escape_property (VStr name) = Ok key /\
    _escape_data value = Ok escaped_value /\
    Utf8.decode key_line = Some (key ++ marker ++ [10%N]) /\
    Utf8.decode value_line = Some (escaped_value ++ [10%N]).
Proof.
  intros (text & Htext & Hdata)%build_file_input_inv.
  rewrite <- (app_nil_r (block_text _ _)), block_text_lines in Hdata.
  apply encode_app_inv in Hdata as (b1 & x1 & H1 & Hx1 & ->).
  apply encode_app_inv in Hx1 as (b2 & x2 & H2 & Hx2 & ->).
  apply encode_app_inv in Hx2 as (b3 & br & H3 & [= <-] & ->).
  assert (b3 = ACTION_ENV_DELIMITER ++ [10%N]) as Hb3 by (by injection H3).
  destruct (file_lines_text_line (escape_property_text name ++ marker) b1
              (b2 ++ b3 ++ [])) as [-> Hd1]; [|done|].
  { apply not_elem_of_app. split; [|apply marker_no_line_feed].
    apply escape_property_text_no_raw. rewrite !elem_of_cons. auto. }
  destruct (file_lines_text_line (escape_text text) b2 (b3 ++ []))
    as [-> Hd2]; [|done|].
  { rewrite escape_text_escaped. apply flat_map_escaped_no_raw. auto. }
  destruct (file_lines_text_line ACTION_ENV_DELIMITER b3 [])
    as [-> _]; [apply delimiter_no_line_feed|done|].
  exists b1, b2, (escape_property_text name), (escape_text text).
  split; [by rewrite Hb3|]. split; [by apply escape_property_run|].
  split; [by apply escape_property_run|].
  by rewrite <- app_assoc in Hd1.
Qed.

Lemma append_file_input_run (variable name path : pystr) (value : pyval)
    (w : world) :
  environ w !! variable = Some path ->
  appended_block path name value w (append_file_input variable name value w).
Proof.
  intros Henv. unfold appended_block, append_file_input, bind, environ_get.
  rewrite Henv. unfold open_append, lift, file_write.
  destruct (_build_file_input name value) as [data|e].
  - exists data. cbn [fst snd fs environ stdout set_fs].
    by rewrite lookup_insert_eq, insert_insert_eq.
  - exists []. cbn [fst snd fs environ stdout set_fs].
    by rewrite app_nil_r.
Qed.

Lemma appended_block_same_files (path name : pystr) (value : pyval)
    (w w' : world) (outcome : result unit * world) :
  fs w' = fs w -> environ w' = environ w -> stdout w' = stdout w ->
  appended_block path name value w' outcome ->
  appended_block path name value w outcome.
Proof.
  intros Hfs Henv Hout (suffix & H1 & H2 & H3 & H4).
  exists suffix. by rewrite <- Hfs, <- Henv, <- Hout.
Qed.

(** X9.  [set_output], [save_state] and [set_env] only append.  With the
    path variable set, the file holds afterwards what it held before
    followed by the new block; when the block cannot be built (the value
    cannot be coerced or encoded) the exception of that step is raised with
    the old content kept, and a file that did not exist has been created
    empty.  No other file and nothing on standard output changes. *)
Theorem writers_append_only (name path : pystr) (value : pyval)
    (use_subprocess : option bool) (w : world) :
  (environ w !! lit "GITHUB_OUTPUT" = Some path ->
   appended_block path name value w
     (set_output name value use_subprocess w)) /\
  (environ w !! lit "GITHUB_STATE" = Some path ->
   appended_block path name value w
     (save_state name value use_subprocess w)) /\
  (environ w !! lit "GITHUB_ENV" = Some path ->
   appended_block path name value w (set_env name value w)).
Proof.
  split; [|split]; intros Henv.
  - destruct (deprecated_use_subprocess_run (lit "set_output") use_subprocess w)
      as (w' & Hrun & Henv' & Hfs).
    unfold set_output, bind. rewrite Hrun.
    apply (appended_block_same_files _ _ _ w w'); [done..| |].
    { by destruct use_subprocess; injection Hrun as <-. }
    apply append_file_input_run. by rewrite Henv'.
  - destruct (deprecated_use_subprocess_run (lit "save_state") use_subprocess w)
      as (w' & Hrun & Henv' & Hfs).
    unfold save_state, bind. rewrite Hrun.
    apply (appended_block_same_files _ _ _ w w'); [done..| |].
    { by destruct use_subprocess; injection Hrun as <-. }
    apply append_file_input_run. by rewrite Henv'.
  - by apply append_file_input_run.
Qed.

(** ** [get_env] *)

(** X10.  [get_env] prefers the process environment: a variable that is set
    there to a non-empty text is returned without the file being read.  For
    a name that is not set there, or set to the empty text, the file is
    read, and when [GITHUB_ENV] names a file that does not exist the lookup
    raises [FileNotFoundError]. *)
Theorem get_env_environment_first (name path : pystr) (w : world) :
  (forall value : pystr,
     environ w !! name = Some value -> value <> [] ->
     get_env name w = (Ok (Some value), w)) /\
  (environ w !! name = None \/ environ w !! name = Some ([] : pystr) ->
   environ w !! lit "GITHUB_ENV" = Some path ->
   fs w !! path = None ->
   get_env name w = (Raise (FileNotFoundError path), w)).
Proof.
  split.
  - intros value Hvalue Hne. unfold get_env, environ_find. rewrite Hvalue.
    by destruct value.
  - intros Hname Henv Hfile. unfold get_env, environ_find, bind. cbv zeta.
    assert (get_workflow_environment_variables w =
            (Raise (FileNotFoundError path), w)) as Hread
      by (unfold get_workflow_environment_variables; by rewrite Henv, Hfile).
    destruct Hname as [-> | ->]; by rewrite Hread.
Qed.

Lemma read_after_set_env_each (pairs : list (pystr * pystr)) (path : pystr)
    (w : world) :
  pairs <> [] ->
  Forall (fun kv => plain_key (fst kv) = true /\ plain_value (snd kv) = true)
    pairs ->
  environ w !! lit "GITHUB_ENV" = Some path ->
  default [] (fs w !! path) = [] ->
  exists w',
    set_env_each pairs w = (Ok tt, w') /\
    environ w' = environ w /\
    get_workflow_environment_variables w' = (Ok (assign_all pairs ∅), w').
Proof.
  intros Hne Hplain Henv Hempty.
  destruct (set_env_each_plain pairs path w Hplain Henv)
    as (bs & w' & Hbs & Hrun & Henv' & Hfile & Hsome).
  exists w'. split; [done|]. split; [done|].
  unfold get_workflow_environment_variables. rewrite Henv', Henv.
  destruct (Hsome (or_introl Hne)) as [content Hcontent].
  rewrite Hempty, Hcontent in Hfile. simpl in Hfile. subst content.
  rewrite Hcontent.
  rewrite <- (app_nil_r (blocks_text pairs)) in Hbs.
  destruct (read_lines_blocks pairs [] bs None None ∅
              (plain_no_line_feed pairs Hplain) Hbs)
    as (br & name' & decoded_value' & [= <-] & ->).
  by rewrite (entries_read_plain pairs Hplain).
Qed.

(** X11.  What [set_env] writes, [get_env] finds: after one or more pairs of
    plain text are written to a [GITHUB_ENV] file that was absent or empty,
    [get_env] of a name that the process environment does not set (or sets
    to the empty text) returns the value written last for that name, and
    [None] when no pair has that name. *)
Theorem get_env_after_set_env (pairs : list (pystr * pystr))
    (name path : pystr) (w : world) :
  pairs <> [] ->
  Forall (fun kv => plain_key (fst kv) = true /\ plain_value (snd kv) = true)
    pairs ->
  environ w !! lit "GITHUB_ENV" = Some path ->
  default [] (fs w !! path) = [] ->
  environ w !! name = None \/ environ w !! name = Some ([] : pystr) ->
  fst ((set_env_each pairs ;;; get_env name) w) =
    Ok (last_written name pairs).
Proof.
  intros Hne Hplain Henv Hempty Hname.
  destruct (read_after_set_env_each pairs path w Hne Hplain Henv Hempty)
    as (w' & Hrun & Henv' & Hread).
  unfold bind at 1. rewrite Hrun. unfold get_env, environ_find. cbv zeta.
  rewrite Henv'.
  assert ((d <- get_workflow_environment_variables ;; ret (d !! name)) w' =
          (Ok (last_written name pairs), w')) as Hfile.
  { unfold bind. rewrite Hread. unfold ret.
    rewrite assign_all_lookup, lookup_empty.
    by destruct (last_written name pairs). }
  destruct Hname as [-> | ->]; by rewrite Hfile.
Qed.

(** ** The job summary and the system path *)

(** X12.  [remove_job_summary] raises neither for a variable that is not
    set nor for a file that is not there.  With [GITHUB_STEP_SUMMARY] set
    the file it names is gone afterwards, whether it was there or not; with
    the variable not set nothing changes.  No other file is touched. *)
Theorem remove_job_summary_never_raises (w : world) :
  exists w',
    remove_job_summary w = (Ok tt, w') /\
    environ w' = environ w /\
    stdout w' = stdout w /\
    fs w' = match environ w !! lit "GITHUB_STEP_SUMMARY" with
            | Some path => delete path (fs w)
            | None => fs w
            end.
Proof.
  unfold remove_job_summary, bind, environ_get, os_remove.
  destruct (environ w !! lit "GITHUB_STEP_SUMMARY") as [path|]; [|by exists w].
  destruct (fs w !! path) as [content|] eqn:Hfile.
  - by eexists.
  - exists w. by rewrite delete_id.
Qed.

(** X13.  [overwrite_job_summary] drops what the summary file held:
    after [overwrite_job_summary(a)] and [append_job_summary(b)] the file
    holds the cleaned [a], a line feed, the cleaned [b] and a line feed, in
    UTF-8, whatever it held before. *)
Theorem overwrite_then_append_summary (a b path : pystr) (ba bb : list N)
    (w : world) :
  environ w !! lit "GITHUB_STEP_SUMMARY" = Some path ->
  Utf8.encode (_clean_markdown_string a ++ [10%N]) = Some ba ->
  Utf8.encode (_clean_markdown_string b ++ [10%N]) = Some bb ->
  (overwrite_job_summary a ;;; append_job_summary b) w =
    (Ok tt, set_fs (<[path := ba ++ bb]> (fs w)) w).
Proof.
  intros Henv Ha Hb.
  unfold overwrite_job_summary, append_job_summary, bind, environ_get,
    open_truncate, open_append, lift, file_write, str_encode.
  rewrite Henv, Ha. cbn [environ fs set_fs]. rewrite Henv, Hb.
  cbn [environ fs set_fs]. unfold set_fs. cbn [environ fs stdout warnings
    uuid_source uuid_calls COMMANDS_USE_SUBPROCESS].
  by rewrite !lookup_insert_eq, !insert_insert_eq.
Qed.

(** X14.  [overwrite_job_summary] empties the file before it writes: when
    the text cannot be encoded it raises [UnicodeEncodeError] and the
    summary that was there is lost. *)
Theorem overwrite_summary_failure_empties (text path : pystr) (w : world) :
  environ w !! lit "GITHUB_STEP_SUMMARY" = Some path ->
  Utf8.encode (_clean_markdown_string text ++ [10%N]) = None ->
  overwrite_job_summary text w =
    (Raise UnicodeEncodeError, set_fs (<[path := []]> (fs w)) w).
Proof.
  intros Henv Htext.
  unfold overwrite_job_summary, bind, environ_get, open_truncate, lift,
    str_encode.
  by rewrite Henv, Htext.
Qed.

Lemma add_system_path_run (path file : pystr) (w : world) :
  environ w !! lit "GITHUB_PATH" = Some file ->
  add_system_path path w =
  match Utf8.encode path with
  | Some bs =>
      (Ok tt, set_fs (<[file := default [] (fs w !! file) ++ bs]> (fs w)) w)
  | None =>
      (Raise UnicodeEncodeError,
       set_fs (<[file := default [] (fs w !! file)]> (fs w)) w)
  end.
Proof.
  intros Henv.
  unfold add_system_path, bind, environ_get, open_append, lift, file_write,
    str_encode.
  rewrite Henv. destruct (Utf8.encode path) as [bs|]; [|done].
  unfold set_fs. cbn [environ fs stdout warnings uuid_source uuid_calls
    COMMANDS_USE_SUBPROCESS].
  by rewrite lookup_insert_eq, insert_insert_eq.
Qed.

(** X15.  [add_system_path] writes the path and nothing after it: two calls
    leave the file as one call with the two paths put together would, with
    no separator between the paths. *)
Theorem add_system_path_twice (a b file : pystr) (bb : list N) (w : world) :
  environ w !! lit "GITHUB_PATH" = Some file ->
  Utf8.encode b = Some bb ->
  (add_system_path a ;;; add_system_path b) w = add_system_path (a ++ b) w.
Proof.
  intros Henv Hb. unfold bind.
  rewrite (add_system_path_run a file w Henv).
  rewrite (add_system_path_run (a ++ b) file w Henv), encode_app, Hb.
  destruct (Utf8.encode a) as [ba|]; [|done].
  rewrite (add_system_path_run b file (set_fs _ w) Henv), Hb.
  unfold set_fs. cbn [environ fs stdout warnings uuid_source uuid_calls
    COMMANDS_USE_SUBPROCESS].
  rewrite lookup_insert_eq, insert_insert_eq. simpl default.
  by rewrite app_assoc.
Qed.

(** ** A value of several lines *)

Lemma starts_with_snoc (pat s : pystr) (x : N) :
  x ∉ pat -> starts_with pat (s ++ [x]) = starts_with pat s.
Proof.
  revert s. induction pat as [|p pat IH]; intros s Hx; [done|].
  apply not_elem_of_cons in Hx as [Hp Hx].
  destruct s as [|c s]; cbn [app]; rewrite ?starts_with_cons.
  - by rewrite (proj2 (N.eqb_neq p x)) by done.
  - by rewrite IH.
Qed.

Lemma contains_snoc (p : N) (pat s : pystr) (x : N) :
  x ∉ p :: pat ->
  contains (p :: pat) (s ++ [x]) = contains (p :: pat) s.
Proof.
  intros Hx. induction s as [|c s IH].
  - cbn [app contains]. rewrite starts_with_cons.
    apply not_elem_of_cons in Hx as [Hp _].
    by rewrite (proj2 (N.eqb_neq p x)) by done.
  - cbn [app contains].
    change (c :: s ++ [x]) with ((c :: s) ++ [x]).
    by rewrite starts_with_snoc, IH.
Qed.

Lemma contains_marker_line (l : pystr) :
  contains marker (l ++ [10%N]) = contains marker l.
Proof.
  assert (marker = 60%N :: lit "<__ENV_DELIMITER__") as -> by reflexivity.
  apply contains_snoc. intros Hin%list_elem_of_In. vm_compute in Hin.
  intuition discriminate.
Qed.

Lemma read_lines_other_lines (others : list pystr) (bs : list N)
    (name value : pystr) (d : gmap pystr pystr) :
  Forall (fun l => (10%N ∉ l) /\ contains marker l = false) others ->
  Utf8.encode (flat_map (fun l => l ++ [10%N]) others) = Some bs ->
  read_lines (file_lines bs) (Some name) (Some value) (<[name := value]> d) =
  Ok (<[name := value]> d).
Proof.
  intros Hothers. revert bs.
  induction Hothers as [|l others [Hl Hmarker] _ IH]; intros bs.
  - by intros [= <-].
  - cbn [flat_map]. intros (b1 & br & H1 & Hbr & ->)%encode_app_inv.
    destruct (file_lines_text_line l b1 br Hl H1) as [-> Hd].
    cbn [read_lines]. unfold bytes_decode. rewrite Hd. cbn [result_bind].
    rewrite contains_marker_line, Hmarker.
    rewrite insert_insert_eq. by apply IH.
Qed.

(** X16.  Of a value that takes several lines in the file, only the first
    is read.  When a header line and a value line are followed by any number
    of lines without the marker (more lines of the value, the delimiter),
    the mapping has the one entry of the header, with the stripped first
    value line. *)
Theorem reader_keeps_first_value_line (w : world) (path key value : pystr)
    (others : list pystr) (content : list N) :
  environ w !! lit "GITHUB_ENV" = Some path ->
  fs w !! path = Some content ->
  10%N ∉ key ->
  10%N ∉ value ->
  Forall (fun l => (10%N ∉ l) /\ contains marker l = false) others ->
  Utf8.encode
    (((key ++ marker) ++ [10%N]) ++ (value ++ [10%N]) ++
     flat_map (fun l => l ++ [10%N]) others) = Some content ->
  get_workflow_environment_variables w =
    (Ok {[ key_read key := value_read value ]}, w).
Proof.
  intros Henv Hfile Hkey Hvalue Hothers Hcontent.
  unfold get_workflow_environment_variables. rewrite Henv, Hfile. f_equal.
  apply encode_app_inv in Hcontent as (b1 & x1 & H1 & Hx1 & ->).
  apply encode_app_inv in Hx1 as (b2 & br & H2 & Hbr & ->).
  destruct (file_lines_text_line (key ++ marker) b1 (b2 ++ br)) as [-> Hd1];
    [|done|].
  { apply not_elem_of_app. split; [done|apply marker_no_line_feed]. }
  destruct (file_lines_text_line value b2 br) as [-> Hd2]; [done..|].
  cbn [read_lines]. unfold bytes_decode. rewrite Hd1. cbn [result_bind].
  rewrite <- app_assoc, contains_app_here.
  destruct (split_header_name (key ++ marker ++ [10%N])) as [parts ->].
  rewrite Hd2. cbn [result_bind].
  rewrite <- insert_empty.
  exact (read_lines_other_lines others br _ _ ∅ Hothers Hbr).
Qed.

(** ** Tokens of nested [stop_commands] *)

Lemma hex_digit_inj (a b : N) :
  (a < 16)%N -> (b < 16)%N -> hex_digit a = hex_digit b -> a = b.
Proof.
  unfold hex_digit. intros Ha Hb.
  destruct (N.ltb_spec a 10), (N.ltb_spec b 10); lia.
Qed.

Lemma hex_fixed_inj (width : nat) (a b : N) :
  (a < 16 ^ N.of_nat width)%N -> (b < 16 ^ N.of_nat width)%N ->
  hex_fixed width a = hex_fixed width b -> a = b.
Proof.
  revert a b. induction width as [|width IH]; intros a b.
  - cbn. lia.
  - rewrite Nat2N.inj_succ, N.pow_succ_r'. intros Ha Hb.
    cbn [hex_fixed]. intros [Hhigh Hlow]%app_inj_tail.
    apply IH in Hhigh; [|lia..].
    apply hex_digit_inj in Hlow; lia.
Qed.

Lemma hex_groups (h : pystr) :
  take 8 h ++ take 4 (drop 8 h) ++ take 4 (drop 12 h) ++
  take 4 (drop 16 h) ++ drop 20 h = h.
Proof.
  rewrite <- (take_drop 8 h) at 6. f_equal.
  rewrite <- (take_drop 4 (drop 8 h)) at 2. f_equal.
  rewrite drop_drop. cbn [Nat.add].
  rewrite <- (take_drop 4 (drop 12 h)) at 2. f_equal.
  rewrite drop_drop. cbn [Nat.add].
  rewrite <- (take_drop 4 (drop 16 h)) at 2. f_equal.
  by rewrite drop_drop.
Qed.

Lemma str_uuid_inj (a b : N) :
  str_uuid a = str_uuid b -> (a mod 2 ^ 128 = b mod 2 ^ 128)%N.
Proof.
  unfold str_uuid. cbv zeta.
  set (ha := hex_fixed 32 (a mod 2 ^ 128)).
  set (hb := hex_fixed 32 (b mod 2 ^ 128)).
  assert (length ha = 32) as Hla by apply length_hex_fixed.
  assert (length hb = 32) as Hlb by apply length_hex_fixed.
  intros Heq.
  apply app_inj_1 in Heq as [H1 Heq];
    [|rewrite !length_take; lia].
  apply app_inj_1 in Heq as [_ Heq]; [|done].
  apply app_inj_1 in Heq as [H2 Heq];
    [|rewrite !length_take, !length_drop; lia].
  apply app_inj_1 in Heq as [_ Heq]; [|done].
  apply app_inj_1 in Heq as [H3 Heq];
    [|rewrite !length_take, !length_drop; lia].
  apply app_inj_1 in Heq as [_ Heq]; [|done].
  apply app_inj_1 in Heq as [H4 Heq];
    [|rewrite !length_take, !length_drop; lia].
  apply app_inj_1 in Heq as [_ H5]; [|done].
  assert (ha = hb) as Hh.
  { rewrite <- (hex_groups ha), <- (hex_groups hb).
    by rewrite H1, H2, H3, H4, H5. }
  apply (hex_fixed_inj 32); [apply N.mod_lt; lia..|exact Hh].
Qed.

(** X17.  [stop_commands] nested in [stop_commands], both without a token:
    the two tokens are the next two values of [uuid.uuid1()], the lines
    come out as begin, begin, end, end with the inner pair inside the outer
    one, and the two tokens differ whenever the two UUID values differ. *)
Theorem nested_stop_commands (use_subprocess : bool) (w : world) :
  let outer := str_uuid (uuid_source w (uuid_calls w)) in
  let inner := str_uuid (uuid_source w (S (uuid_calls w))) in
  let run :=
    stop_commands None use_subprocess
      (stop_commands None use_subprocess (ret tt)) w in
  fst run = Ok tt /\
  stdout (snd run) =
    stdout w ++
    [written use_subprocess w (lit "::stop-commands ::" ++ outer);
     written use_subprocess w (lit "::stop-commands ::" ++ inner);
     written use_subprocess w (lit "::" ++ inner ++ lit "::");
     written use_subprocess w (lit "::" ++ outer ++ lit "::")] /\
  ((uuid_source w (uuid_calls w) mod 2 ^ 128 <>
    uuid_source w (S (uuid_calls w)) mod 2 ^ 128)%N ->
   outer <> inner).
Proof.
  intros outer inner run. split; [done|]. split.
  - subst run. unfold stop_commands, with_contextmanager.
    cbn [before_yield after_yield stop_commands_generator].
    rewrite !begin_stop_commands_run. cbn. by rewrite <- !app_assoc.
  - intros Hne Heq. by apply Hne, str_uuid_inj.
Qed.

(** ** The writers and the process environment *)

Lemma append_file_input_environ (variable name : pystr) (value : pyval)
    (w : world) :
  environ (snd (append_file_input variable name value w)) = environ w.
Proof.
  unfold append_file_input, bind, environ_get.
  destruct (environ w !! variable) as [path|]; [|done].
  unfold open_append, lift, file_write.
  by destruct (_build_file_input name value).
Qed.

(** X18.  [save_state], [set_output] and [set_env] write to their files and
    leave the process environment as it is, whether they return or raise:
    [get_state] and [get_user_input] answer after them what they answered
    before, so a state that was just saved is not what [get_state] returns. *)
Theorem writers_keep_environment (name key : pystr) (value : pyval)
    (use_subprocess : option bool) (w : world) :
  let after_save := snd (save_state name value use_subprocess w) in
  let after_output := snd (set_output name value use_subprocess w) in
  let after_env := snd (set_env name value w) in
  environ after_save = environ w /\
  environ after_output = environ w /\
  environ after_env = environ w /\
  fst (get_state key after_save) = fst (get_state key w) /\
  fst (get_user_input key after_output) = fst (get_user_input key w) /\
  fst (get_state key after_env) = fst (get_state key w).
Proof.
  intros after_save after_output after_env.
  assert (environ after_save = environ w) as Hsave.
  { subst after_save. unfold save_state, bind.
    destruct (deprecated_use_subprocess_run (lit "save_state")
                use_subprocess w) as (w' & -> & Henv & _).
    by rewrite append_file_input_environ. }
  assert (environ after_output = environ w) as Houtput.
  { subst after_output. unfold set_output, bind.
    destruct (deprecated_use_subprocess_run (lit "set_output")
                use_subprocess w) as (w' & -> & Henv & _).
    by rewrite append_file_input_environ. }
  assert (environ after_env = environ w) as Henv
    by apply append_file_input_environ.
  unfold get_state, get_user_input, environ_find. cbn [fst].
  by rewrite Hsave, Houtput, Henv.
Qed.

(** ** Containers are written as ASCII *)

Lemma printable_app (a b : pystr) :
  printable (a ++ b) = printable a && printable b.
Proof. apply forallb_app. Qed.

Lemma printable_uint (u : Decimal.uint) :
  printable (lit (NilEmpty.string_of_uint u)) = true.
Proof. induction u; cbn [NilEmpty.string_of_uint]; try done; exact IHu. Qed.

Lemma printable_str_int (z : Z) : printable (str_int z) = true.
Proof.
  unfold str_int. destruct z as [|p|p]; cbn [Z.to_int NilEmpty.string_of_int].
  - done.
  - apply printable_uint.
  - exact (printable_uint (Pos.to_uint p)).
Qed.

Lemma printable_fraction (fraction : Decimal.uint) :
  printable
    match fraction with
    | Decimal.Nil => []
    | _ => lit "." ++ lit (NilEmpty.string_of_uint fraction)
    end = true.
Proof.
  pose proof (printable_uint fraction) as Hfraction.
  destruct fraction; try done; by rewrite printable_app, Hfraction.
Qed.

Lemma printable_exponent_text (e : Z) : printable (exponent_text e) = true.
Proof.
  unfold exponent_text. rewrite !printable_app, printable_str_int.
  by destruct (e <? 0)%Z, (Z.abs e <? 10)%Z.
Qed.

Lemma printable_numeral (negative : bool) (integral fraction : Decimal.uint)
    (exponent : option Z) :
  printable (numeral negative integral fraction exponent) = true.
Proof.
  unfold numeral.
  rewrite !printable_app, printable_uint, printable_fraction.
  destruct negative, exponent as [e|]; try done;
    by rewrite printable_app, printable_exponent_text.
Qed.

Lemma printable_floatstr (x : pyfloat) : printable (Json.floatstr x) = true.
Proof. destruct x as [|[]|]; try done. apply printable_numeral. Qed.

Lemma printable_hex_fixed (width : nat) (n : N) :
  printable (hex_fixed width n) = true.
Proof.
  revert n. induction width as [|width IH]; intros n; [done|].
  cbn [hex_fixed]. rewrite printable_app, IH. cbn [printable forallb andb].
  rewrite andb_true_r. unfold hex_digit.
  assert (n mod 16 < 16)%N by (apply N.mod_lt; lia).
  destruct (N.ltb_spec (n mod 16) 10); by bool_N.
Qed.

Lemma printable_escape_char (c : N) : printable (Json.escape_char c) = true.
Proof.
  unfold Json.escape_char, Json.u_escape.
  repeat (match goal with
          | |- context [(c =? ?k)%N] => destruct (c =? k)%N; [done|]
          end).
  destruct ((32 <=? c) && (c <=? 126))%N eqn:Hc;
    [cbn [printable forallb]; by rewrite Hc|].
  destruct (c <? 65536)%N;
    rewrite ?printable_app, !printable_hex_fixed; done.
Qed.

Lemma printable_flat_map (f : N -> pystr) (s : pystr) :
  (forall c, printable (f c) = true) -> printable (flat_map f s) = true.
Proof.
  intros Hf. induction s as [|c s IH]; [done|].
  cbn [flat_map]. by rewrite printable_app, Hf, IH.
Qed.

Lemma printable_encode_string (s : pystr) :
  printable (Json.encode_string s) = true.
Proof.
  unfold Json.encode_string. rewrite !printable_app.
  by rewrite (printable_flat_map _ _ printable_escape_char).
Qed.

Lemma printable_join (sep : pystr) (parts : list pystr) :
  printable sep = true ->
  (forall part, In part parts -> printable part = true) ->
  printable (join sep parts) = true.
Proof.
  intros Hsep. induction parts as [|part parts IH]; intros Hparts; [done|].
  destruct parts as [|part' parts]; [apply Hparts; by left|].
  change (join sep (part :: part' :: parts))
    with (part ++ sep ++ join sep (part' :: parts)).
  rewrite !printable_app, Hsep, (Hparts part) by (by left).
  apply IH. intros p Hp. apply Hparts. by right.
Qed.

Lemma result_mapM_parts {A B} (f : A -> result B) (l : list A)
    (ys : list B) :
  result_mapM f l = Ok ys ->
  forall y, In y ys -> exists x, In x l /\ f x = Ok y.
Proof.
  revert ys. induction l as [|x l IH]; intros ys.
  - intros [= <-] y [].
  - cbn [result_mapM]. destruct (f x) as [y0|] eqn:Hx; [|done].
    cbn [result_bind]. destruct (result_mapM f l) as [ys0|]; [|done].
    cbn [result_bind]. intros [= <-] y [<-|Hy].
    + exists x. split; [by left|done].
    + destruct (IH ys0 eq_refl y Hy) as (x' & Hin & Hx').
      exists x'. split; [by right|done].
Qed.

Lemma printable_encode_key (k : pyval) (s : pystr) :
  Json.encode_key k = Ok s -> printable s = true.
Proof.
  destruct k as [|[]| | | | | | |]; cbn [Json.encode_key]; intros [= <-];
    apply printable_encode_string.
Qed.

Lemma Ok_inj {A} (a b : A) : Ok a = Ok b -> a = b.
Proof. by intros [= ->]. Qed.

Lemma printable_dumps_depth (n : nat) (v : pyval) (s : pystr) :
  depth v <= n -> Json.dumps v = Ok s -> printable s = true.
Proof.
  clear container_str. revert v s. induction n as [|n IH]; intros v s Hdepth;
    destruct v as [|[]| | | |items|items|entries|];
    cbn [Json.dumps depth] in *; try lia; try (intros [= <-]; done);
    try (intros [= <-]; apply printable_str_int);
    try (intros [= <-]; apply printable_floatstr);
    try (intros [= <-]; apply printable_encode_string); try done.
  - destruct (result_mapM Json.dumps items) as [parts|] eqn:Hparts; [|done].
    cbn [result_bind]. intros <-%Ok_inj.
    rewrite !printable_app.
    rewrite printable_join; [done..|]. intros part Hpart.
    destruct (result_mapM_parts _ _ _ Hparts part Hpart) as (x & Hx & Hdump).
    apply (IH x); [|done].
    apply (list_max_bound depth items n x); [lia|done].
  - destruct (result_mapM Json.dumps items) as [parts|] eqn:Hparts; [|done].
    cbn [result_bind]. intros <-%Ok_inj.
    rewrite !printable_app.
    rewrite printable_join; [done..|]. intros part Hpart.
    destruct (result_mapM_parts _ _ _ Hparts part Hpart) as (x & Hx & Hdump).
    apply (IH x); [|done].
    apply (list_max_bound depth items n x); [lia|done].
  - match goal with
    | |- context [result_mapM ?f entries] =>
        destruct (result_mapM f entries) as [parts|] eqn:Hparts; [|done]
    end.
    cbn [result_bind]. intros <-%Ok_inj.
    rewrite !printable_app.
    rewrite printable_join; [done..|]. intros part Hpart.
    destruct (result_mapM_parts _ _ _ Hparts part Hpart)
      as ([k x] & Hx & Hdump).
    cbn [fst snd] in Hdump.
    destruct (Json.encode_key k) as [ks|] eqn:Hk; [|done].
    destruct (Json.dumps x) as [xs|] eqn:Hxs; [|done].
    apply Ok_inj in Hdump as <-. rewrite !printable_app.
    rewrite (printable_encode_key k ks Hk), (IH x xs); [done| |done].
    apply (list_max_bound (fun entry => depth (snd entry)) entries n (k, x));
      [lia|done].
Qed.

Lemma encode_printable (s : pystr) :
  printable s = true -> Utf8.encode s = Some s.
Proof.
  induction s as [|c s IH]; [done|].
  cbn [printable forallb]. intros [Hc Hs]%andb_true_iff.
  apply andb_true_iff in Hc as [_ Hc%N.leb_le].
  cbn [Utf8.encode]. unfold Utf8.encode_char.
  rewrite (proj2 (N.ltb_lt c 128)) by lia. by rewrite (IH Hs).
Qed.

Lemma printable_escaped (c : N) :
  printable [c] = true -> printable (escaped c) = true.
Proof.
  intros Hc. unfold escaped.
  destruct (c =? 37)%N; [done|]. destruct (c =? 13)%N; [done|].
  by destruct (c =? 10)%N.
Qed.

(** X19.  A list, a tuple or a dict is coerced to one line of printable
    ASCII, whatever text it holds: the escaped value has only printable ASCII
    characters and can always be encoded for the file. *)
Theorem container_text_is_ascii (data : pyval) (text escaped_value : pystr) :
  is_container data = true ->
  _make_string data = Ok text ->
  _escape_data data = Ok escaped_value ->
  printable text = true /\
  printable escaped_value = true /\
  Utf8.encode escaped_value = Some escaped_value.
Proof.
  unfold _escape_data, _make_string. intros ->. intros Hdumps.
  rewrite Hdumps. cbn [result_bind]. intros [= <-].
  assert (printable text = true) as Htext
    by exact (printable_dumps_depth (depth data) data text (le_n _) Hdumps).
  assert (printable (escape_text text) = true) as Hescaped.
  { rewrite escape_text_escaped. clear Hdumps.
    induction text as [|c text IH]; [done|].
    cbn [printable forallb] in Htext.
    apply andb_true_iff in Htext as [Hc Htext].
    cbn [flat_map]. rewrite printable_app, (IH Htext), andb_true_r.
    apply printable_escaped. cbn [printable forallb]. by rewrite Hc. }
  split; [done|]. split; [done|]. by apply encode_printable.
Qed.

End Source.

(** ** The theorems at concrete inputs *)

Lemma escape_data_output_and_round_trip_witness :
  contains (lit "%0D") (lit "50% of a,b:c") = false /\
  contains (lit "%0A") (lit "50% of a,b:c") = false /\
  _escape_data any_container_str (VStr (lit "50% of a,b:c")) =
    Ok (lit "50%25 of a,b:c") /\
  _clean_markdown_string (escape_text (lit "50% of a,b:c")) =
    lit "50% of a,b:c".
Proof.
  split; [reflexivity|]. split; [reflexivity|]. split; [reflexivity|].
  apply (escape_data_output_and_round_trip any_container_str
           (lit "50% of a,b:c")); reflexivity.
Defined.

(** C3 as stated fails: [%0D] has no [:] and no [,], is escaped to [%250D],
    and is decoded to a carriage return. *)
Lemma escape_clean_round_trip_fails :
  contains (lit ":") (lit "%0D") = false /\
  contains (lit ",") (lit "%0D") = false /\
  _escape_data any_container_str (VStr (lit "%0D")) = Ok (lit "%250D") /\
  _clean_markdown_string (lit "%250D") = [13%N] /\
  _clean_markdown_string (lit "%250D") <> lit "%0D".
Proof. repeat split; try reflexivity. discriminate. Qed.



Lemma begin_stop_commands_generates_token_witness :
  (@None pystr = None \/ @None pystr = Some []) /\
  begin_stop_commands any_container_str None false empty_world =
    (Ok (lit "00000000-0000-0000-0000-000000000000"),
     set_stdout
       [Printed (lit "::stop-commands ::00000000-0000-0000-0000-000000000000")]
       (set_uuid_calls 1 empty_world)).
Proof.
  split; [by left|].
  exact (proj1 (begin_stop_commands_generates_token any_container_str None
                  false empty_world (or_introl eq_refl))).
Defined.

Lemma missing_path_variable_witness :
  environ empty_world !! lit "GITHUB_OUTPUT" = None /\
  environ empty_world !! lit "GITHUB_ENV" = None /\
  fst (set_output any_container_str (lit "result") (VInt 1) None empty_world) =
    Raise (KeyError (lit "GITHUB_OUTPUT")) /\
  fs (snd (set_output any_container_str (lit "result") (VInt 1) None
             empty_world)) = fs empty_world /\
  get_workflow_environment_variables empty_world = (Ok ∅, empty_world).
Proof.
  assert (environ empty_world !! lit "GITHUB_OUTPUT" = None) as Hout
    by reflexivity.
  assert (environ empty_world !! lit "GITHUB_ENV" = None) as Henv
    by reflexivity.
  pose proof (missing_path_variable any_container_str (lit "result") (VInt 1)
                None [] empty_world) as (Houtput & _ & Henvironment & _).
  split; [exact Hout|]. split; [exact Henv|].
  split; [exact (proj1 (Houtput Hout))|].
  split; [exact (proj2 (Houtput Hout))|].
  exact (proj2 (Henvironment Henv)).
Defined.

Lemma escapers_return_iff_coercible_witness :
  (coercible encodable_list = true /\
   exists text,
     Json.dumps encodable_list = Ok text /\
     _make_string any_container_str encodable_list = Ok text /\
     _escape_data any_container_str encodable_list = Ok (escape_text text) /\
     _escape_property any_container_str encodable_list =
       Ok (replace (lit ",") (lit "%2C")
             (replace (lit ":") (lit "%3A") (escape_text text)))) /\
  (coercible list_with_set = false /\
   exists e,
     e = TypeError /\
     _make_string any_container_str list_with_set = Raise e /\
     _escape_data any_container_str list_with_set = Raise e /\
     _escape_property any_container_str list_with_set = Raise e) /\
  (coercible raising_object = false /\
   exists e,
     raising_object = VObject (Raise e) /\
     _make_string any_container_str raising_object = Raise e /\
     _escape_data any_container_str raising_object = Raise e /\
     _escape_property any_container_str raising_object = Raise e).
Proof.
  split; [split; [reflexivity|]|split; (split; [reflexivity|])].
  - exact (escapers_return_iff_coercible any_container_str encodable_list).
  - exact (escapers_return_iff_coercible any_container_str list_with_set).
  - exact (escapers_return_iff_coercible any_container_str raising_object).
Defined.

(** C8 as stated fails: a list that holds an object [json.dumps] cannot
    encode, a set for one, or a dict with a tuple as key makes both escapers
    raise [TypeError], and so does an object whose [__str__] raises, with
    the exception of that method. *)
Lemma escapers_raise_on_unserializable :
  _escape_data any_container_str (VList [VObject (Ok (lit "{1, 2}"))]) =
    Raise TypeError /\
  _escape_property any_container_str (VList [VObject (Ok (lit "{1, 2}"))]) =
    Raise TypeError /\
  _escape_data any_container_str (VDict [(VTuple [], VInt 1)]) =
    Raise TypeError /\
  _escape_property any_container_str (VDict [(VTuple [], VInt 1)]) =
    Raise TypeError /\
  _escape_data any_container_str raising_object =
    Raise (UserError (lit "no text")) /\
  _escape_property any_container_str raising_object =
    Raise (UserError (lit "no text")).
Proof. repeat split; reflexivity. Qed.

(** What the coercion gives on values with floating point numbers. *)
Lemma floats_are_coerced :
  _make_string any_container_str encodable_list =
    Ok (lit "[1, 1.5, " ++ Json.quote ++ lit "a:b" ++ Json.quote ++
        lit ", {" ++ Json.quote ++ lit "k" ++ Json.quote ++ lit ": null, " ++
        Json.quote ++ lit "0.5" ++ Json.quote ++ lit ": [NaN]}]") /\
  _make_string any_container_str (VFloat FNan) = Ok (lit "nan") /\
  _make_string any_container_str
    (VFloat (FFinite true (Decimal.D1 Decimal.Nil) Decimal.Nil (Some (-5)%Z)))
    = Ok (lit "-1e-05") /\
  _make_string any_container_str
    (VFloat (FFinite false (Decimal.D1 Decimal.Nil) (Decimal.D5 Decimal.Nil)
               (Some 300%Z)))
    = Ok (lit "1.5e+300").
Proof. repeat split; reflexivity. Qed.

Lemma first_line_without_marker_raises_witness :
  let content := lit "plain text" ++ [10%N] in
  environ (env_world (Some content)) !! lit "GITHUB_ENV" = Some env_path /\
  fs (env_world (Some content)) !! env_path = Some content /\
  file_lines content = [content] /\
  Utf8.decode content = Some content /\
  contains marker content = false /\
  get_workflow_environment_variables (env_world (Some content)) =
    (Raise (UnboundLocalError (lit "decoded_value")),
     env_world (Some content)).
Proof.
  intros content.
  assert (environ (env_world (Some content)) !! lit "GITHUB_ENV" =
          Some env_path) as Henv by reflexivity.
  assert (fs (env_world (Some content)) !! env_path = Some content) as Hfile
    by reflexivity.
  assert (file_lines content = [content]) as Hlines by reflexivity.
  assert (Utf8.decode content = Some content) as Hdecode by reflexivity.
  assert (contains marker content = false) as Hmarker by reflexivity.
  repeat (split; [assumption|]).
  exact (first_line_without_marker_raises (env_world (Some content)) env_path
           content content [] content Henv Hfile Hlines Hdecode Hmarker).
Defined.

Lemma env_file_round_trip_witness :
  let pairs := [(lit "A", lit "1"); (lit "B", lit "2"); (lit "A", lit "3")] in
  pairs <> [] /\
  Forall (fun kv => plain_key (fst kv) = true /\ plain_value (snd kv) = true)
    pairs /\
  environ (env_world None) !! lit "GITHUB_ENV" = Some env_path /\
  default [] (fs (env_world None) !! env_path) = [] /\
  exists m w',
    (set_env_each any_container_str pairs ;;;
     get_workflow_environment_variables) (env_world None) = (Ok m, w') /\
    size m = 2 /\
    m !! lit "A" = Some (lit "3") /\
    m !! lit "B" = Some (lit "2") /\
    m !! lit "C" = None.
Proof.
  intros pairs.
  assert (pairs <> []) as Hne by discriminate.
  assert (Forall (fun kv => plain_key (fst kv) = true /\
                            plain_value (snd kv) = true) pairs) as Hplain
    by (repeat constructor).
  assert (environ (env_world None) !! lit "GITHUB_ENV" = Some env_path)
    as Henv by reflexivity.
  assert (default [] (fs (env_world None) !! env_path) = []) as Hempty
    by reflexivity.
  repeat (split; [assumption|]).
  destruct (env_file_round_trip any_container_str (env_world None) env_path
              pairs Hne Hplain Henv Hempty) as (m & w' & Hrun & Hsize & Hlast).
  exists m, w'. split; [exact Hrun|]. split; [exact Hsize|].
  split; [exact (Hlast (lit "A"))|].
  split; [exact (Hlast (lit "B"))|exact (Hlast (lit "C"))].
Defined.

(** C2 as stated fails: the value [100%] is written as [100%25], and the
    reader gives [100%25] back. *)
Lemma env_file_round_trip_fails :
  exists m,
    fst ((set_env any_container_str (lit "A") (VStr (lit "100%")) ;;;
          get_workflow_environment_variables) (env_world None)) = Ok m /\
    m !! lit "A" = Some (lit "100%25") /\
    m !! lit "A" <> Some (lit "100%").
Proof.
  eexists. split; [reflexivity|]. split; [reflexivity|discriminate].
Qed.

Lemma dangling_header_adds_nothing_witness :
  let blocks := [(lit "k", lit "v")] in
  let header := lit "other<<__ENV_DELIMITER__" in
  let content := blocks_text blocks ++ header ++ [10%N] in
  environ (env_world (Some content)) !! lit "GITHUB_ENV" = Some env_path /\
  fs (env_world (Some content)) !! env_path = Some content /\
  Forall (fun block => (10%N ∉ fst block) /\ (10%N ∉ snd block)) blocks /\
  (10%N ∉ header) /\
  contains marker header = true /\
  Utf8.encode (blocks_text blocks ++ header ++ [10%N]) = Some content /\
  exists m,
    get_workflow_environment_variables (env_world (Some content)) =
      (Ok m, env_world (Some content)) /\
    m !! lit "k" = Some (lit "v") /\
    m !! lit "other" = None.
Proof.
  intros blocks header content.
  assert (forall s : pystr, forallb (fun c => negb (c =? 10)%N) s = true ->
                            10%N ∉ s) as Hfree.
  { intros s Hs Hin. apply list_elem_of_In in Hin.
    apply (proj1 (forallb_forall _ _) Hs) in Hin. discriminate Hin. }
  assert (environ (env_world (Some content)) !! lit "GITHUB_ENV" =
          Some env_path) as Henv by reflexivity.
  assert (fs (env_world (Some content)) !! env_path = Some content) as Hfile
    by reflexivity.
  assert (Forall (fun block => (10%N ∉ fst block) /\ (10%N ∉ snd block))
            blocks) as Hblocks
    by (repeat constructor; apply Hfree; reflexivity).
  assert (10%N ∉ header) as Hheader by (apply Hfree; reflexivity).
  assert (contains marker header = true) as Hmarker by reflexivity.
  assert (Utf8.encode (blocks_text blocks ++ header ++ [10%N]) = Some content)
    as Hcontent by reflexivity.
  repeat (split; [assumption|]).
  destruct (dangling_header_adds_nothing
              (env_world (Some content)) env_path blocks header true content
              Henv Hfile Hblocks Hheader Hmarker Hcontent)
    as (m & Hrun & _ & Hlast).
  exists m. split; [exact Hrun|].
  split; [exact (Hlast (lit "k"))|exact (Hlast (lit "other"))].
Defined.

(** C7 as stated fails: the key of a dangling header stays in the mapping
    when a complete block before it has the same key. *)
Lemma dangling_header_key_kept :
  let content :=
    block_text (lit "k") (lit "v") ++ lit "k<<__ENV_DELIMITER__" ++ [10%N] in
  last (file_lines content) = Some (lit "k<<__ENV_DELIMITER__" ++ [10%N]) /\
  exists m,
    fst (get_workflow_environment_variables (env_world (Some content))) =
      Ok m /\
    m !! lit "k" = Some (lit "v").
Proof.
  split; [reflexivity|]. eexists. split; reflexivity.
Qed.

(** ** The further theorems at concrete inputs *)

Lemma escape_property_no_delimiter_witness :
  _escape_property any_container_str (VStr (lit "a:b,c")) =
    Ok (lit "a%3Ab%2Cc") /\
  (58%N ∉ lit "a%3Ab%2Cc") /\ (44%N ∉ lit "a%3Ab%2Cc").
Proof.
  assert (_escape_property any_container_str (VStr (lit "a:b,c")) =
          Ok (lit "a%3Ab%2Cc")) as Hrun by reflexivity.
  split; [exact Hrun|].
  destruct (escape_property_no_delimiter any_container_str _ _ Hrun)
    as (Hcolon & Hcomma & _).
  by split.
Defined.

Lemma escape_data_length_witness :
  without [37; 13; 10]%N (lit "plain") = true /\
  exists out,
    _escape_data any_container_str (VStr (lit "plain")) = Ok out /\
    out = lit "plain".
Proof.
  split; [reflexivity|].
  destruct (escape_data_length any_container_str (lit "plain"))
    as (out & Hrun & _ & Hsame).
  exists out. split; [exact Hrun|]. apply Hsame. reflexivity.
Defined.

Lemma escapers_injective_witness :
  _escape_data any_container_str (VStr (lit "50%")) =
    _escape_data any_container_str (VStr (lit "50%")) /\
  lit "50%" = lit "50%".
Proof.
  split; [reflexivity|].
  apply (proj1 (escapers_injective any_container_str (lit "50%") (lit "50%"))).
  reflexivity.
Defined.

Lemma to_camel_case_snake_witness :
  Forall (fun w => lower_word w = true) [lit "end"; lit "column"] /\
  _to_camel_case (lit "end_column") = lit "endColumn".
Proof.
  assert (Forall (fun w => lower_word w = true) [lit "end"; lit "column"])
    as Hwords by (repeat constructor).
  split; [exact Hwords|].
  exact (to_camel_case_snake (lit "end") [lit "column"] Hwords).
Defined.

Lemma get_user_input_ignores_case_witness :
  ascii_text (lit "Who_To_Greet") = true /\
  get_user_input (lit "who_to_greet") empty_world =
    get_user_input (lit "Who_To_Greet") empty_world.
Proof.
  split; [reflexivity|].
  exact (proj1 (get_user_input_ignores_case (lit "Who_To_Greet") empty_world
                  eq_refl)).
Defined.

Lemma file_input_three_lines_witness :
  _build_file_input any_container_str (lit "k") (VStr (lit "v")) =
    Ok (block_text (lit "k") (lit "v")) /\
  exists key_line value_line,
    file_lines (block_text (lit "k") (lit "v")) =
      [key_line; value_line; ACTION_ENV_DELIMITER ++ [10%N]].
Proof.
  assert (_build_file_input any_container_str (lit "k") (VStr (lit "v")) =
          Ok (block_text (lit "k") (lit "v"))) as Hrun by reflexivity.
  split; [exact Hrun|].
  destruct (file_input_three_lines any_container_str _ _ _ Hrun)
    as (key_line & value_line & _ & _ & Hlines & _).
  by exists key_line, value_line.
Defined.

Lemma writers_append_only_witness :
  environ (env_world None) !! lit "GITHUB_ENV" = Some env_path /\
  appended_block any_container_str env_path (lit "k") (VInt 1)
    (env_world None)
    (set_env any_container_str (lit "k") (VInt 1) (env_world None)).
Proof.
  assert (environ (env_world None) !! lit "GITHUB_ENV" = Some env_path)
    as Henv by reflexivity.
  split; [exact Henv|].
  exact (proj2 (proj2 (writers_append_only any_container_str (lit "k")
                         env_path (VInt 1) None (env_world None))) Henv).
Defined.

Lemma get_env_environment_first_witness :
  environ (env_world None) !! lit "GITHUB_ENV" = Some env_path /\
  env_path <> [] /\
  environ (env_world None) !! lit "HOME" = None /\
  fs (env_world None) !! env_path = None /\
  get_env (lit "GITHUB_ENV") (env_world None) =
    (Ok (Some env_path), env_world None) /\
  get_env (lit "HOME") (env_world None) =
    (Raise (FileNotFoundError env_path), env_world None).
Proof.
  assert (environ (env_world None) !! lit "GITHUB_ENV" = Some env_path)
    as Henv by reflexivity.
  assert (env_path <> []) as Hne by discriminate.
  assert (environ (env_world None) !! lit "HOME" = None) as Hhome
    by reflexivity.
  assert (fs (env_world None) !! env_path = None) as Hfile by reflexivity.
  repeat (split; [assumption|]). split.
  - exact (proj1 (get_env_environment_first (lit "GITHUB_ENV") env_path
                    (env_world None)) env_path Henv Hne).
  - exact (proj2 (get_env_environment_first (lit "HOME") env_path
                    (env_world None)) (or_introl Hhome) Henv Hfile).
Defined.

Lemma get_env_after_set_env_witness :
  let pairs := [(lit "A", lit "1"); (lit "B", lit "2"); (lit "A", lit "3")] in
  pairs <> [] /\
  Forall (fun kv => plain_key (fst kv) = true /\ plain_value (snd kv) = true)
    pairs /\
  environ (env_world None) !! lit "GITHUB_ENV" = Some env_path /\
  default [] (fs (env_world None) !! env_path) = [] /\
  environ (env_world None) !! lit "A" = None /\
  fst ((set_env_each any_container_str pairs ;;; get_env (lit "A"))
         (env_world None)) = Ok (Some (lit "3")).
Proof.
  intros pairs.
  assert (pairs <> []) as Hne by discriminate.
  assert (Forall (fun kv => plain_key (fst kv) = true /\
                            plain_value (snd kv) = true) pairs) as Hplain
    by (repeat constructor).
  assert (environ (env_world None) !! lit "GITHUB_ENV" = Some env_path)
    as Henv by reflexivity.
  assert (default [] (fs (env_world None) !! env_path) = []) as Hempty
    by reflexivity.
  assert (environ (env_world None) !! lit "A" = None) as Hname by reflexivity.
  repeat (split; [assumption|]).
  exact (get_env_after_set_env any_container_str pairs (lit "A") env_path
           (env_world None) Hne Hplain Henv Hempty (or_introl Hname)).
Defined.

Lemma overwrite_then_append_summary_witness :
  environ files_world !! lit "GITHUB_STEP_SUMMARY" = Some summary_path /\
  Utf8.encode (_clean_markdown_string (lit "# Title") ++ [10%N]) =
    Some (lit "# Title" ++ [10%N]) /\
  Utf8.encode (_clean_markdown_string (lit "50%25 done") ++ [10%N]) =
    Some (lit "50% done" ++ [10%N]) /\
  (overwrite_job_summary (lit "# Title") ;;;
   append_job_summary (lit "50%25 done")) files_world =
    (Ok tt,
     set_fs
       (<[summary_path := (lit "# Title" ++ [10%N]) ++
                          (lit "50% done" ++ [10%N])]> (fs files_world))
       files_world).
Proof.
  assert (environ files_world !! lit "GITHUB_STEP_SUMMARY" = Some summary_path)
    as Henv by reflexivity.
  assert (Utf8.encode (_clean_markdown_string (lit "# Title") ++ [10%N]) =
          Some (lit "# Title" ++ [10%N])) as Ha by reflexivity.
  assert (Utf8.encode (_clean_markdown_string (lit "50%25 done") ++ [10%N]) =
          Some (lit "50% done" ++ [10%N])) as Hb by reflexivity.
  repeat (split; [assumption|]).
  exact (overwrite_then_append_summary (lit "# Title") (lit "50%25 done")
           summary_path _ _ files_world Henv Ha Hb).
Defined.

Lemma overwrite_summary_failure_empties_witness :
  environ files_world !! lit "GITHUB_STEP_SUMMARY" = Some summary_path /\
  Utf8.encode (_clean_markdown_string [0xD800%N] ++ [10%N]) = None /\
  fst (overwrite_job_summary [0xD800%N] files_world) =
    Raise UnicodeEncodeError /\
  fs (snd (overwrite_job_summary [0xD800%N] files_world)) !! summary_path =
    Some [].
Proof.
  assert (environ files_world !! lit "GITHUB_STEP_SUMMARY" = Some summary_path)
    as Henv by reflexivity.
  assert (Utf8.encode (_clean_markdown_string [0xD800%N] ++ [10%N]) = None)
    as Htext by reflexivity.
  repeat (split; [assumption|]).
  rewrite (overwrite_summary_failure_empties [0xD800%N] summary_path
             files_world Henv Htext).
  split; reflexivity.
Defined.

Lemma add_system_path_twice_witness :
  environ files_world !! lit "GITHUB_PATH" = Some system_path_file /\
  Utf8.encode (lit "/opt/b") = Some (lit "/opt/b") /\
  (add_system_path (lit "/opt/a") ;;; add_system_path (lit "/opt/b"))
    files_world = add_system_path (lit "/opt/a/opt/b") files_world.
Proof.
  assert (environ files_world !! lit "GITHUB_PATH" = Some system_path_file)
    as Henv by reflexivity.
  assert (Utf8.encode (lit "/opt/b") = Some (lit "/opt/b")) as Hb
    by reflexivity.
  repeat (split; [assumption|]).
  exact (add_system_path_twice (lit "/opt/a") (lit "/opt/b") system_path_file
           _ files_world Henv Hb).
Defined.

Lemma reader_keeps_first_value_line_witness :
  let others := [lit "second line"; ACTION_ENV_DELIMITER] in
  let content :=
    ((lit "k" ++ marker) ++ [10%N]) ++ (lit "first line" ++ [10%N]) ++
    flat_map (fun l => l ++ [10%N]) others in
  environ (env_world (Some content)) !! lit "GITHUB_ENV" = Some env_path /\
  fs (env_world (Some content)) !! env_path = Some content /\
  (10%N ∉ lit "k") /\
  (10%N ∉ lit "first line") /\
  Forall (fun l => (10%N ∉ l) /\ contains marker l = false) others /\
  Utf8.encode content = Some content /\
  get_workflow_environment_variables (env_world (Some content)) =
    (Ok {[ lit "k" := lit "first line" ]}, env_world (Some content)).
Proof.
  intros others content.
  assert (forall s : pystr, forallb (fun c => negb (c =? 10)%N) s = true ->
                            10%N ∉ s) as Hfree.
  { intros s Hs Hin. apply list_elem_of_In in Hin.
    apply (proj1 (forallb_forall _ _) Hs) in Hin. discriminate Hin. }
  assert (environ (env_world (Some content)) !! lit "GITHUB_ENV" =
          Some env_path) as Henv by reflexivity.
  assert (fs (env_world (Some content)) !! env_path = Some content) as Hfile
    by reflexivity.
  assert (10%N ∉ lit "k") as Hkey by (apply Hfree; reflexivity).
  assert (10%N ∉ lit "first line") as Hvalue by (apply Hfree; reflexivity).
  assert (Forall (fun l => (10%N ∉ l) /\ contains marker l = false) others)
    as Hothers
    by (repeat constructor; try (apply Hfree); reflexivity).
  assert (Utf8.encode content = Some content) as Hcontent by reflexivity.
  repeat (split; [assumption|]).
  exact (reader_keeps_first_value_line (env_world (Some content)) env_path
           (lit "k") (lit "first line") others content
           Henv Hfile Hkey Hvalue Hothers Hcontent).
Defined.

Lemma nested_stop_commands_witness :
  (uuid_source empty_world (uuid_calls empty_world) mod 2 ^ 128 <>
   uuid_source empty_world (S (uuid_calls empty_world)) mod 2 ^ 128)%N /\
  str_uuid (uuid_source empty_world (uuid_calls empty_world)) <>
  str_uuid (uuid_source empty_world (S (uuid_calls empty_world))).
Proof.
  assert ((uuid_source empty_world (uuid_calls empty_world) mod 2 ^ 128 <>
           uuid_source empty_world (S (uuid_calls empty_world)) mod 2 ^ 128)%N)
    as Hne by (vm_compute; discriminate).
  split; [exact Hne|].
  exact (proj2 (proj2 (nested_stop_commands any_container_str false
                         empty_world)) Hne).
Defined.

Lemma container_text_is_ascii_witness :
  let data := VList [VStr [0xD800; 233]%N; VInt (-5)] in
  let text :=
    lit "[" ++ Json.quote ++ lit "\ud800\u00e9" ++ Json.quote ++ lit ", -5]" in
  is_container data = true /\
  _make_string any_container_str data = Ok text /\
  _escape_data any_container_str data = Ok text /\
  Utf8.encode [0xD800; 233]%N = None /\
  Utf8.encode text = Some text.
Proof.
  intros data text.
  assert (is_container data = true) as Hcontainer by reflexivity.
  assert (_make_string any_container_str data = Ok text) as Htext
    by reflexivity.
  assert (_escape_data any_container_str data = Ok text) as Hescaped
    by reflexivity.
  repeat (split; [assumption|]). split; [reflexivity|].
  exact (proj2 (proj2 (container_text_is_ascii any_container_str data _ _
                         Hcontainer Htext Hescaped))).
Defined.
